(** * iog: a context-tagged file and console logger

    A shallow embedding of the two versions of the [Iog] class found in the
    repository, and the properties of its constructor, retention sweeper,
    path resolver, formatter and pause flag.

    - [IogJs] embeds src/src/iog.js (the older class: no [slim], no [onLog]);
    - [Iog]   embeds src/unnamed/part_000 (the class with [slim] and [onLog]).

    JavaScript objects that are shared and mutated (the options object) live
    in a heap of property maps; everything the class does to the outside
    world (console, file system, timers) is recorded in the [World]. *)

From stdpp Require Import gmap strings list pretty.
From Stdlib Require Import ZArith.

Set Warnings "-register-all".

Open Scope Z_scope.
Open Scope string_scope.

(** ** JavaScript values *)

(** The values that reach the logger. Numbers are the integer-valued ones
    of magnitude below 10^21 (those that JavaScript prints with all their
    digits); a function is known by its source text, an [Error] by its
    [name] and [message] properties; arrays and plain objects are immutable
    trees (they are only ever handed to the serializer). *)
Inductive JsValue : Type :=
| JUndefined
| JNull
| JBool (b : bool)
| JNum (n : Z)
| JStr (s : string)
| JFun (src : string)
| JErr (name message : string)
| JArr (items : list JsValue)
| JObj (fields : list (string * JsValue)).

(** [typeof v] *)
Definition typeof (v : JsValue) : string :=
  match v with
  | JUndefined => "undefined"
  | JNull => "object"
  | JBool _ => "boolean"
  | JNum _ => "number"
  | JStr _ => "string"
  | JFun _ => "function"
  | JErr _ _ => "object"
  | JArr _ => "object"
  | JObj _ => "object"
  end.

(** [require('is-error')]: true exactly on [Error] instances. *)
Definition isError (v : JsValue) : bool :=
  match v with
  | JErr _ _ => true
  | _ => false
  end.

(** ToBoolean, as used by [if (v)], [v ? a : b] and [a && b]. *)
Definition truthy (v : JsValue) : bool :=
  match v with
  | JUndefined | JNull => false
  | JBool b => b
  | JNum n => negb (Z.eqb n 0)
  | JStr s => negb (String.eqb s "")
  | JFun _ | JErr _ _ | JArr _ | JObj _ => true
  end.

(** [Error.prototype.toString] on an error with string [name] and [message]. *)
Definition error_toString (name message : string) : string :=
  if String.eqb name "" then message
  else if String.eqb message "" then name
  else name +:+ ": " +:+ message.

(** [Array.prototype.join] with a separator. *)
Fixpoint join (sep : string) (l : list string) : string :=
  match l with
  | [] => ""
  | [x] => x
  | x :: rest => x +:+ sep +:+ join sep rest
  end.

(** ToString, as applied by a template literal [`${v}`]. A number is
    printed in decimal with all its digits, as JavaScript does below 10^21;
    from 10^21 on JavaScript switches to the exponent form, which is outside
    the numbers modelled. *)
Fixpoint ToString (v : JsValue) : string :=
  match v with
  | JUndefined => "undefined"
  | JNull => "null"
  | JBool true => "true"
  | JBool false => "false"
  | JNum n => pretty n
  | JStr s => s
  | JFun src => src
  | JErr name message => error_toString name message
  | JArr items =>
      join "," (map (fun x => match x with
                              | JUndefined | JNull => ""
                              | _ => ToString x
                              end) items)
  | JObj _ => "[object Object]"
  end.

(** A parameter with a default value: the default is taken exactly when the
    argument is [undefined]. *)
Definition default_param (dflt arg : JsValue) : JsValue :=
  match arg with
  | JUndefined => dflt
  | _ => arg
  end.

(** The line feed character of the source's ['\n']. *)
Definition nl : string := String (Ascii.ascii_of_nat 10) EmptyString.

(** ** Constants of the module *)

Definition SEPARATOR : string :=
  nl +:+ nl +:+
  "---------------------------------------------------------------------------------------"
  +:+ nl +:+ nl.

Definition DAY_SECONDS : Z := 86400.

(** ** The host: the libraries the class calls *)

Definition Time := Z.

(** The second argument of [stringify(value, {replace, space})]. *)
Record StringifyOpts := { replace : JsValue; space : JsValue }.

Inductive Outcome (A : Type) : Type :=
| Returned (a : A)
| Threw (e : JsValue).
Arguments Returned {A} a.
Arguments Threw {A} e.

(** The external collaborators, taken as given:
    [dateformat], [stringme], [path.resolve] and [mkdirp.sync] (which may
    throw), the property names of the host's [console] ([key in console]) and
    what calling [console[key](text)] does (it returns or throws). *)
Class Host := {
  dateFormat : Time -> string -> string;
  stringify : JsValue -> option StringifyOpts -> string;
  path_resolve : JsValue -> JsValue -> Outcome string;
  mkdirp_sync : JsValue -> Outcome unit;
  in_console : string -> bool;
  console_method : string -> string -> Outcome unit
}.

(** ** The world *)

Definition loc := nat.

(** An [Iog] instance: [this.contextName], [this.opts] (a reference to the
    options object in the heap) and [this._paused]. *)
Record Logger := {
  contextName : JsValue;
  opts : loc;
  _paused : bool
}.

(** [deleteAge * DAY_SECONDS], kept as the product the source writes. *)
Record Product := { factor : JsValue; times : Z }.

(** What the class does to the outside. *)
Inductive Event : Type :=
| EFindRemove (dir : JsValue) (age_seconds : Product) (extensions : list JsValue)
| EMkdirp (dir : JsValue)
| EConsole (method : string) (text : string)
| EAppendFile (file : string) (data : string)
| ECall (f : JsValue) (args : list JsValue).

(** A callback given to [setTimeout]: [() => { this._clear() }]. *)
Inductive Task : Type :=
| Sweep (this : Logger).

(** A pending timer; [delay] is the second argument of [setTimeout], which
    the host reads as milliseconds. *)
Record Timer := { delay : Z; task : Task }.

(** The callback given to [fs.appendFile], waiting for the append to end:
    the closure holds [this], [body] and [type]. *)
Record Completion := { c_this : Logger; c_body : string; c_type : JsValue }.

Record World := {
  heap : gmap loc (gmap string JsValue);
  clock : nat -> Time;     (* the successive readings of [new Date()] *)
  reads : nat;             (* how many readings were taken *)
  events : list Event;     (* oldest first *)
  timers : list Timer;     (* armed by [setTimeout], oldest first *)
  pending : list Completion (* appends in flight, oldest first *)
}.

(** ** A state and exception monad over the world *)

Definition M (A : Type) : Type := World -> Outcome A * World.

Definition ret {A} (a : A) : M A := fun w => (Returned a, w).
Definition throw {A} (e : JsValue) : M A := fun w => (Threw e, w).
Definition bind {A B} (m : M A) (k : A -> M B) : M B :=
  fun w => match m w with
           | (Returned a, w') => k a w'
           | (Threw e, w') => (Threw e, w')
           end.
Definition lift {A} (o : Outcome A) : M A := fun w => (o, w).
Definition when (b : bool) (m : M unit) : M unit := if b then m else ret tt.

Notation "x <- m ;; k" := (bind m (fun x => k))
  (at level 100, m at next level, right associativity).
Notation "m ;;; k" := (bind m (fun _ => k))
  (at level 100, right associativity).

(** The updates of one field of the world. *)
Definition with_heap (h : gmap loc (gmap string JsValue)) (w : World) : World :=
  {| heap := h; clock := clock w; reads := reads w; events := events w;
     timers := timers w; pending := pending w |}.

Definition tick (w : World) : World :=
  {| heap := heap w; clock := clock w; reads := S (reads w); events := events w;
     timers := timers w; pending := pending w |}.

Definition add_event (e : Event) (w : World) : World :=
  {| heap := heap w; clock := clock w; reads := reads w;
     events := events w ++ [e]; timers := timers w; pending := pending w |}.

Definition with_timers (ts : list Timer) (w : World) : World :=
  {| heap := heap w; clock := clock w; reads := reads w; events := events w;
     timers := ts; pending := pending w |}.

Definition with_pending (cs : list Completion) (w : World) : World :=
  {| heap := heap w; clock := clock w; reads := reads w; events := events w;
     timers := timers w; pending := cs |}.

(** [o.k] read from a world: a missing property reads as [undefined]. *)
Definition prop_of (w : World) (l : loc) (k : string) : JsValue :=
  default JUndefined (heap w !! l ≫= (.!! k)).

(** [o.k] *)
Definition get_prop (l : loc) (k : string) : M JsValue :=
  fun w => (Returned (prop_of w l k), w).

(** [o.k = v] *)
Definition set_prop (l : loc) (k : string) (v : JsValue) : M unit :=
  fun w => (Returned tt,
            with_heap (<[l := <[k := v]> (default ∅ (heap w !! l))]> (heap w)) w).

(** An object literal: a fresh object in the heap. *)
Definition alloc (o : gmap string JsValue) : M loc :=
  fun w => let l := fresh (dom (heap w)) in
           (Returned l, with_heap (<[l := o]> (heap w)) w).

(** [Object.assign(target, source)]: every own property of [source] is
    written into [target], which is returned. *)
Definition Object_assign (target : loc) (source : gmap string JsValue) : M loc :=
  fun w => (Returned target,
            with_heap (<[target := source ∪ default ∅ (heap w !! target)]> (heap w)) w).

(** [new Date()] *)
Definition new_Date : M Time :=
  fun w => (Returned (clock w (reads w)), tick w).

Definition emit (e : Event) : M unit :=
  fun w => (Returned tt, add_event e w).

(** [setTimeout(callback, delay)] *)
Definition setTimeout (t : Task) (d : Z) : M unit :=
  fun w => (Returned tt, with_timers (timers w ++ [{| delay := d; task := t |}]) w).

(** [fs.appendFile(file, data, callback)]: the append is requested and the
    callback waits for its end. *)
Definition appendFile (file data : string) (c : Completion) : M unit :=
  fun w => (Returned tt,
            with_pending (pending w ++ [c]) (add_event (EAppendFile file data) w)).

(** [console[method](text)]: the call is recorded; what the method does is
    the host's. *)
Definition console_call `{Host} (method text : string) : M unit :=
  emit (EConsole method text) ;;; lift (console_method method text).

(** [mkdirp.sync(dir)] *)
Definition mkdirp `{Host} (dir : JsValue) : M unit :=
  emit (EMkdirp dir) ;;; lift (mkdirp_sync dir).

(** The own properties of the object at [l]. *)
Definition object_at (w : World) (l : loc) : gmap string JsValue :=
  default ∅ (heap w !! l).

Definition own_props (l : loc) : M (gmap string JsValue) :=
  fun w => (Returned (object_at w l), w).

(** [obj.k = v] on an object value: an existing key keeps its place. *)
Fixpoint obj_set (k : string) (v : JsValue) (fields : list (string * JsValue))
  : list (string * JsValue) :=
  match fields with
  | [] => [(k, v)]
  | (k', v') :: rest =>
      if String.eqb k' k then (k, v) :: rest else (k', v') :: obj_set k v rest
  end.

(** [new TypeError('context name is required')] *)
Definition context_name_required : JsValue :=
  JErr "TypeError" "context name is required".

(** ** Methods that are the same text in both files *)

Section Shared.
Context `{Host}.

(** [_clear()]: one sweep of the log directory, then the next one is armed. *)
Definition _clear (this : Logger) : M unit :=
  dir <- get_prop (opts this) "path" ;;
  deleteAge <- get_prop (opts this) "deleteAge" ;;
  logExt <- get_prop (opts this) "logExt" ;;
  emit (EFindRemove dir {| factor := deleteAge; times := DAY_SECONDS |} [logExt]) ;;;
  setTimeout (Sweep this) DAY_SECONDS.

(** [_filePath()] *)
Definition _filePath (this : Logger) : M string :=
  rotation <- get_prop (opts this) "rotation" ;;
  fileName <- (if truthy rotation
               then now <- new_Date ;; ret (JStr (dateFormat now "yyyy-mm-dd"))
               else ret (contextName this)) ;;
  dir <- get_prop (opts this) "path" ;;
  logExt <- get_prop (opts this) "logExt" ;;
  ret (ToString dir +:+ "/" +:+ ToString fileName +:+ ToString logExt).

(** [pause()] and [resume()] set the flag and return [this]. *)
Definition pause (this : Logger) : Logger :=
  {| contextName := contextName this; opts := opts this; _paused := true |}.

Definition resume (this : Logger) : Logger :=
  {| contextName := contextName this; opts := opts this; _paused := false |}.

(** The standard block of a record:
    [`CONTEXT: ${ctx}\nDATE: ${date}\nTYPE: ${type}\nBODY:\n\n${msg}${sep}`]. *)
Definition block (ctx : JsValue) (date : string) (type msg sep : JsValue) : string :=
  "CONTEXT: " +:+ ToString ctx +:+ nl +:+
  "DATE: " +:+ date +:+ nl +:+
  "TYPE: " +:+ ToString type +:+ nl +:+
  "BODY:" +:+ nl +:+ nl +:+
  ToString msg +:+ ToString sep.

(** [if (typeof msg === 'object' && !isError(msg))
       msg = stringify(msg, {replace: null, space: 2});] *)
Definition serialize_msg (msg : JsValue) : JsValue :=
  if String.eqb (typeof msg) "object" && negb (isError msg)
  then JStr (stringify msg (Some {| replace := JNull; space := JNum 2 |}))
  else msg.

(** [console[type in console ? type : 'log']]: the property key is the
    string of [type]. *)
Definition console_method_of (type : JsValue) : string :=
  if in_console (ToString type) then ToString type else "log".

(** One turn of the timer queue: the oldest timer fires. *)
Definition fire_timer : M unit :=
  fun w => match timers w with
           | [] => (Returned tt, w)
           | t :: rest =>
               match task t with
               | Sweep this =>
                   _clear this (with_timers rest w)
               end
           end.

End Shared.

(** ** src/src/iog.js *)

Module IogJs.
Section Class.
Context `{Host}.

(** The object literal given to [Object.assign] as its source. *)
Definition defaults : gmap string JsValue :=
  list_to_map
    [("path", JStr "log"); ("logExt", JStr ".log"); ("separator", JStr SEPARATOR);
     ("console", JBool true); ("rotation", JBool false); ("deleteAge", JNum 0)].

(** [constructor(contextName, opts = {})]; [None] is an omitted [opts]. *)
Definition constructor (ctx : JsValue) (o : option loc) : M Logger :=
  o <- match o with Some l => ret l | None => alloc ∅ end ;;
  if String.eqb (typeof ctx) "undefined"
  then throw context_name_required
  else
    opts' <- Object_assign o defaults ;;
    let this := {| contextName := ctx; opts := opts'; _paused := false |} in
    rotation <- get_prop (opts this) "rotation" ;;
    when (truthy rotation)
      (dir <- get_prop (opts this) "path" ;;
       resolved <- lift (path_resolve dir (contextName this)) ;;
       set_prop (opts this) "path" (JStr resolved) ;;;
       deleteAge <- get_prop (opts this) "deleteAge" ;;
       when (truthy deleteAge) (_clear this)) ;;;
    dir <- get_prop (opts this) "path" ;;
    when (truthy dir) (mkdirp dir) ;;;
    ret this.

(** [write(msg = '', type = 'log', show = true)] *)
Definition write (this : Logger) (msg type show : JsValue) : M unit :=
  let msg := default_param (JStr "") msg in
  let type := default_param (JStr "log") type in
  let show := default_param (JBool true) show in
  if _paused this then ret tt
  else
    let msg := serialize_msg msg in
    now <- new_Date ;;
    let date := dateFormat now "yyyy-mm-dd HH:MM:ss:l" in
    separator <- get_prop (opts this) "separator" ;;
    let body := block (contextName this) date type msg separator in
    console <- get_prop (opts this) "console" ;;
    when (truthy console && truthy show)
      (console_call (console_method_of type) body) ;;;
    file <- _filePath this ;;
    appendFile file body {| c_this := this; c_body := body; c_type := type |}.

(** The callback of [fs.appendFile]: [(err) => { if (err) throw err; }]. *)
Definition on_append (c : Completion) (err : JsValue) : M unit :=
  if truthy err then throw err else ret tt.

(** The oldest append in flight ends with [err] ([null] on success). *)
Definition complete (err : JsValue) : M unit :=
  fun w => match pending w with
           | [] => (Returned tt, w)
           | c :: rest =>
               on_append c err (with_pending rest w)
           end.

Definition error (this : Logger) (msg : JsValue) : M unit :=
  write this (default_param (JStr "") msg) (JStr "error") JUndefined.
Definition warn (this : Logger) (msg : JsValue) : M unit :=
  write this (default_param (JStr "") msg) (JStr "warn") JUndefined.
Definition info (this : Logger) (msg : JsValue) : M unit :=
  write this (default_param (JStr "") msg) (JStr "info") JUndefined.
Definition trace (this : Logger) (msg : JsValue) : M unit :=
  write this (default_param (JStr "") msg) (JStr "trace") JUndefined.

End Class.
End IogJs.

(** ** src/unnamed/part_000 *)

Module Iog.
Section Class.
Context `{Host}.

(** The object literal given to [Object.assign] as its target. *)
Definition defaults : gmap string JsValue :=
  list_to_map
    [("path", JStr "logs"); ("logExt", JStr ".log"); ("separator", JStr SEPARATOR);
     ("console", JBool true); ("rotation", JBool false); ("deleteAge", JNum 0);
     ("slim", JBool false); ("onLog", JNull)].

(** [constructor(contextName, opts = {})]; [None] is an omitted [opts]. *)
Definition constructor (ctx : JsValue) (o : option loc) : M Logger :=
  o <- match o with Some l => ret l | None => alloc ∅ end ;;
  if String.eqb (typeof ctx) "undefined"
  then throw context_name_required
  else
    target <- alloc defaults ;;
    source <- own_props o ;;
    opts' <- Object_assign target source ;;
    let this := {| contextName := ctx; opts := opts'; _paused := false |} in
    rotation <- get_prop (opts this) "rotation" ;;
    when (truthy rotation)
      (dir <- get_prop (opts this) "path" ;;
       resolved <- lift (path_resolve dir (contextName this)) ;;
       set_prop (opts this) "path" (JStr resolved) ;;;
       deleteAge <- get_prop (opts this) "deleteAge" ;;
       when (truthy deleteAge) (_clear this)) ;;;
    dir <- get_prop (opts this) "path" ;;
    when (truthy dir) (mkdirp dir) ;;;
    ret this.

(** The record object of slim mode:
    [body = {CONTEXT, DATE, TYPE, BODY: ''}; body.BODY = msg;] *)
Definition slim_record (ctx : JsValue) (date : string) (type msg : JsValue) : JsValue :=
  JObj (obj_set "BODY" msg
          [("CONTEXT", ctx); ("DATE", JStr date); ("TYPE", type); ("BODY", JStr "")]).

(** [write(msg = '', type = 'log', show = true)] *)
Definition write (this : Logger) (msg type show : JsValue) : M unit :=
  let msg := default_param (JStr "") msg in
  let type := default_param (JStr "log") type in
  let show := default_param (JBool true) show in
  if _paused this then ret tt
  else
    now <- new_Date ;;
    let date := dateFormat now "yyyy-mm-dd HH:MM:ss:l" in
    slim <- get_prop (opts this) "slim" ;;
    body <- (if truthy slim
             then ret (stringify (slim_record (contextName this) date type msg) None
                       +:+ nl)
             else
               let msg := serialize_msg msg in
               separator <- get_prop (opts this) "separator" ;;
               ret (block (contextName this) date type msg separator)) ;;
    console <- get_prop (opts this) "console" ;;
    when (truthy console && truthy show)
      (console_call (console_method_of type) body) ;;;
    file <- _filePath this ;;
    appendFile file body {| c_this := this; c_body := body; c_type := type |}.

(** The callback of [fs.appendFile]:
    [(err) => { if (err) throw err;
                if (typeof this.opts.onLog === 'function') this.opts.onLog(body, type); }] *)
Definition on_append (c : Completion) (err : JsValue) : M unit :=
  if truthy err then throw err
  else
    onLog <- get_prop (opts (c_this c)) "onLog" ;;
    when (String.eqb (typeof onLog) "function")
      (emit (ECall onLog [JStr (c_body c); c_type c])).

(** The oldest append in flight ends with [err] ([null] on success). *)
Definition complete (err : JsValue) : M unit :=
  fun w => match pending w with
           | [] => (Returned tt, w)
           | c :: rest =>
               on_append c err (with_pending rest w)
           end.

Definition error (this : Logger) (msg : JsValue) : M unit :=
  write this (default_param (JStr "") msg) (JStr "error") JUndefined.
Definition warn (this : Logger) (msg : JsValue) : M unit :=
  write this (default_param (JStr "") msg) (JStr "warn") JUndefined.
Definition info (this : Logger) (msg : JsValue) : M unit :=
  write this (default_param (JStr "") msg) (JStr "info") JUndefined.
Definition trace (this : Logger) (msg : JsValue) : M unit :=
  write this (default_param (JStr "") msg) (JStr "trace") JUndefined.

End Class.
End Iog.

(** ** A host to run the model on

    Closed examples need a concrete host. This one prints a date as the
    clock reading and the pattern, serializes to compact JSON (the [space]
    option is not honoured), resolves a path by joining its two segments,
    and has a console whose methods return. *)

Definition dq : string := String (Ascii.ascii_of_nat 34) EmptyString.

Fixpoint json_escape (s : string) : string :=
  match s with
  | EmptyString => EmptyString
  | String c rest =>
      (if Ascii.eqb c (Ascii.ascii_of_nat 34) then "\" +:+ dq
       else if Ascii.eqb c (Ascii.ascii_of_nat 92) then "\\"
       else if Ascii.eqb c (Ascii.ascii_of_nat 10) then "\n"
       else String c EmptyString) +:+ json_escape rest
  end.

Fixpoint to_json (v : JsValue) : string :=
  match v with
  | JUndefined | JNull | JFun _ => "null"
  | JBool true => "true"
  | JBool false => "false"
  | JNum n => pretty n
  | JStr s => dq +:+ json_escape s +:+ dq
  | JErr _ _ => "{}"
  | JArr items => "[" +:+ join "," (map to_json items) +:+ "]"
  | JObj fields =>
      "{" +:+ join "," (map (fun kv => dq +:+ json_escape (fst kv) +:+ dq +:+ ":"
                                       +:+ to_json (snd kv)) fields) +:+ "}"
  end.

Definition sample_host : Host := {|
  dateFormat := fun now pattern => pretty now +:+ " as " +:+ pattern;
  stringify := fun v _ => to_json v;
  path_resolve := fun a b =>
    match a, b with
    | JStr a, JStr b => Returned (a +:+ "/" +:+ b)
    | _, _ => Threw (JErr "TypeError" "The path argument must be of type string")
    end;
  mkdirp_sync := fun _ => Returned tt;
  in_console := fun k => bool_decide (k ∈ ["log"; "info"; "warn"; "error"; "trace"; "debug"]);
  console_method := fun _ _ => Returned tt
|}.

(** A world with the given objects in its heap, a clock that starts at
    [1000] and advances by one at each reading, and nothing done yet. *)
Definition world_of (objects : list (loc * gmap string JsValue)) : World :=
  {| heap := list_to_map objects; clock := fun n => 1000 + Z.of_nat n; reads := 0;
     events := []; timers := []; pending := [] |}.

(** [new Iog('svc', opts)] on the sample host, with the caller's [opts] at
    location 0: the world after the construction, and the instance, for
    src/unnamed/part_000 ([svc], whose options are the fresh object 1) and
    for src/src/iog.js ([svc_js], whose options are the caller's object). *)
Definition svc : Logger :=
  {| contextName := JStr "svc"; opts := 1%nat; _paused := false |}.

Definition svc_js : Logger :=
  {| contextName := JStr "svc"; opts := 0%nat; _paused := false |}.

Definition svc_world (supplied : list (string * JsValue)) : World :=
  snd (Iog.constructor (H := sample_host) (JStr "svc") (Some 0%nat)
         (world_of [(0%nat, list_to_map supplied)])).

Definition svc_js_world (supplied : list (string * JsValue)) : World :=
  snd (IogJs.constructor (H := sample_host) (JStr "svc") (Some 0%nat)
         (world_of [(0%nat, list_to_map supplied)])).

(** ** Vocabulary of the statements *)

Section Vocabulary.
Context `{Host}.

(** The end of both constructors: [if (this.opts.path) mkdirp.sync(this.opts.path)],
    then the instance is returned. *)
Definition created (this : Logger) (dir : JsValue) (w : World) : Outcome Logger * World :=
  if truthy dir
  then match mkdirp_sync dir with
       | Returned _ => (Returned this, add_event (EMkdirp dir) w)
       | Threw e => (Threw e, add_event (EMkdirp dir) w)
       end
  else (Returned this, w).

(** An option of the configuration that src/unnamed/part_000 merges from
    the supplied properties [src]. *)
Definition cfg_of (src : gmap string JsValue) (k : string) : JsValue :=
  default JUndefined ((src ∪ Iog.defaults) !! k).

(** The path that [_filePath()] gives in the world [w]. *)
Definition file_of (this : Logger) (w : World) : string :=
  ToString (prop_of w (opts this) "path") +:+ "/" +:+
  ToString (if truthy (prop_of w (opts this) "rotation")
            then JStr (dateFormat (clock w (reads w)) "yyyy-mm-dd")
            else contextName this) +:+
  ToString (prop_of w (opts this) "logExt").

(** The world after [fs.appendFile(this._filePath(), body, callback)]. *)
Definition requested (this : Logger) (body : string) (type : JsValue) (w : World) : World :=
  let w' := if truthy (prop_of w (opts this) "rotation") then tick w else w in
  with_pending (pending w' ++ [{| c_this := this; c_body := body; c_type := type |}])
    (add_event (EAppendFile (file_of this w) body) w').

(** The record that src/unnamed/part_000 renders in the world [w]. *)
Definition text_of (this : Logger) (msg type : JsValue) (w : World) : string :=
  let date := dateFormat (clock w (reads w)) "yyyy-mm-dd HH:MM:ss:l" in
  if truthy (prop_of w (opts this) "slim")
  then stringify (JObj [("CONTEXT", contextName this); ("DATE", JStr date);
                        ("TYPE", type); ("BODY", msg)]) None +:+ nl
  else block (contextName this) date type (serialize_msg msg)
         (prop_of w (opts this) "separator").

(** The world once [write] has read the clock for the date and, when the
    console is enabled and [show] is truthy, has shown the record. *)
Definition shown (this : Logger) (type show : JsValue) (body : string) (w : World)
  : World :=
  if truthy (prop_of w (opts this) "console") && truthy show
  then add_event (EConsole (console_method_of type) body) (tick w)
  else tick w.

(** A value that a JSON-like serializer keeps as a member of an object
    ([undefined] and functions are left out). *)
Definition serializable (v : JsValue) : bool :=
  match v with
  | JUndefined | JFun _ => false
  | _ => true
  end.

(** A member of a serialized object: the quoted key, a colon, the
    serialized value. *)
Definition member (kv : string * JsValue) : string :=
  dq +:+ json_escape (fst kv) +:+ dq +:+ ":" +:+ stringify (snd kv) None.

(** The serializer, with its default options, writes an object of
    serializable values member by member, as JSON does. *)
Definition writes_objects_by_member : Prop :=
  forall fields : list (string * JsValue),
    forallb (fun kv => serializable (snd kv)) fields = true ->
    stringify (JObj fields) None = "{" +:+ join "," (map member fields) +:+ "}".

(** The timer queue turns [n] times. *)
Fixpoint run_timers (n : nat) (w : World) : World :=
  match n with
  | O => w
  | S n' => run_timers n' (snd (fire_timer w))
  end.

(** A sequence of calls [write(msg, type, show)] on one logger. *)
Fixpoint write_all (write : Logger -> JsValue -> JsValue -> JsValue -> M unit)
    (this : Logger) (calls : list (JsValue * JsValue * JsValue)) : M unit :=
  match calls with
  | [] => ret tt
  | (msg, type, show) :: rest =>
      write this msg type show ;;; write_all write this rest
  end.

(** What a failed construction can be blamed on once the context name is
    there: a throw of [path.resolve] or of [mkdirp.sync]. *)
Definition built_or_host_threw (ctx : JsValue) (r : Outcome Logger) : Prop :=
  match r with
  | Returned this => contextName this = ctx /\ _paused this = false
  | Threw e =>
      (exists a b, path_resolve a b = Threw e) \/ (exists d, mkdirp_sync d = Threw e)
  end.

End Vocabulary.

(** [setTimeout] counts its delay in milliseconds. *)
Definition milliseconds_of_seconds (s : Z) : Z := 1000 * s.

(** The line feeds of a text. *)
Fixpoint count_nl (s : string) : nat :=
  match s with
  | EmptyString => O
  | String c rest =>
      ((if Ascii.eqb c (Ascii.ascii_of_nat 10) then 1 else 0) + count_nl rest)%nat
  end.

(** The sweeps done so far. *)
Definition is_sweep (e : Event) : bool :=
  match e with
  | EFindRemove _ _ _ => true
  | _ => false
  end.

Definition sweeps (w : World) : list Event := List.filter is_sweep (events w).

(** What reaches the console, the log files and the user's callback. *)
Definition is_output (e : Event) : bool :=
  match e with
  | EConsole _ _ | EAppendFile _ _ | ECall _ _ => true
  | EFindRemove _ _ _ | EMkdirp _ => false
  end.

Definition outputs (w : World) : list Event := List.filter is_output (events w).

(** The appends requested so far. *)
Definition is_append (e : Event) : bool :=
  match e with
  | EAppendFile _ _ => true
  | _ => false
  end.

Definition appended (w : World) : list Event := List.filter is_append (events w).

(** A chain of calls [.pause()] and [.resume()], each on what the one
    before returned. *)
Inductive FlagCall : Type := CallPause | CallResume.

Definition call_flag (this : Logger) (c : FlagCall) : Logger :=
  match c with
  | CallPause => pause this
  | CallResume => resume this
  end.

Definition chain (this : Logger) (calls : list FlagCall) : Logger :=
  fold_left call_flag calls this.

(** The sample host with a console whose methods throw. *)
Definition not_a_function : JsValue := JErr "TypeError" "console[type] is not a function".

Definition broken_console_host : Host := {|
  dateFormat := dateFormat (Host := sample_host);
  stringify := stringify (Host := sample_host);
  path_resolve := path_resolve (Host := sample_host);
  mkdirp_sync := mkdirp_sync (Host := sample_host);
  in_console := in_console (Host := sample_host);
  console_method := fun _ _ => Threw not_a_function
|}.

(** The sample host with a file system that refuses to create directories. *)
Definition no_permission : JsValue := JErr "Error" "EACCES: permission denied, mkdir".

Definition read_only_host : Host := {|
  dateFormat := dateFormat (Host := sample_host);
  stringify := stringify (Host := sample_host);
  path_resolve := path_resolve (Host := sample_host);
  mkdirp_sync := fun _ => Threw no_permission;
  in_console := in_console (Host := sample_host);
  console_method := console_method (Host := sample_host)
|}.

(** What one write that returns adds, whichever file it is of. *)
Definition one_more (type : JsValue) (w w' : World) : Prop :=
  length (appended w') = S (length (appended w))
  /\ map c_type (pending w')
     = (map c_type (pending w) ++ [default_param (JStr "log") type])%list
  /\ heap w' = heap w /\ timers w' = timers w.

(* ================================================================= *)
(** * Properties *)

(** ** The monad and the heap *)

Lemma typeof_undefined (v : JsValue) :
  String.eqb (typeof v) "undefined" = true <-> v = JUndefined.
Proof. destruct v; simpl; split; intros E; try reflexivity; discriminate. Qed.

Lemma typeof_defined (v : JsValue) :
  v <> JUndefined -> String.eqb (typeof v) "undefined" = false.
Proof. destruct v; simpl; intros E; try reflexivity. contradiction. Qed.

Lemma prop_of_insert (w : World) (h : gmap loc (gmap string JsValue))
    (l : loc) (o : gmap string JsValue) (k : string) :
  prop_of (with_heap (<[l := o]> h) w) l k = default JUndefined (o !! k).
Proof. unfold prop_of. simpl. by rewrite lookup_insert_eq. Qed.

Lemma fresh_not_allocated (h : gmap loc (gmap string JsValue)) (l : loc) :
  is_Some (h !! l) -> l <> fresh (dom h).
Proof.
  intros Hl ->. apply elem_of_dom in Hl. by apply is_fresh in Hl.
Qed.

Lemma with_heap_twice (h h' : gmap loc (gmap string JsValue)) (w : World) :
  with_heap h (with_heap h' w) = with_heap h w.
Proof. reflexivity. Qed.

(** ** What the methods evaluate to *)

Section Evaluation.
Context `{Host}.

Lemma mkdirp_created (this : Logger) (dir : JsValue) (w : World) :
  (let (o, w') := when (truthy dir) (mkdirp dir) w in
   match o with
   | Returned _ => (Returned this, w')
   | Threw e => (Threw e, w')
   end) = created this dir w.
Proof.
  unfold created, when, mkdirp, bind, emit, lift, ret.
  destruct (truthy dir); [|reflexivity]. by destruct (mkdirp_sync dir).
Qed.

Lemma IogJs_defaults_lookup (src : gmap string JsValue) (k : string) (v : JsValue) :
  IogJs.defaults !! k = Some v -> default JUndefined ((IogJs.defaults ∪ src) !! k) = v.
Proof. intros E. by rewrite (lookup_union_Some_l _ _ _ _ E). Qed.

(** An omitted [opts] is a fresh empty object. *)
Lemma IogJs_constructor_omitted (ctx : JsValue) (w : World) :
  IogJs.constructor ctx None w =
  IogJs.constructor ctx (Some (fresh (dom (heap w))))
    (with_heap (<[fresh (dom (heap w)) := ∅]> (heap w)) w).
Proof. reflexivity. Qed.

Lemma Iog_constructor_omitted (ctx : JsValue) (w : World) :
  Iog.constructor ctx None w =
  Iog.constructor ctx (Some (fresh (dom (heap w))))
    (with_heap (<[fresh (dom (heap w)) := ∅]> (heap w)) w).
Proof. reflexivity. Qed.

Lemma IogJs_constructor_undefined (o : option loc) (w : World) :
  fst (IogJs.constructor JUndefined o w) = Threw context_name_required.
Proof. by destruct o. Qed.

Lemma Iog_constructor_undefined (o : option loc) (w : World) :
  fst (Iog.constructor JUndefined o w) = Threw context_name_required.
Proof. by destruct o. Qed.

(** src/src/iog.js: the defaults are written over the supplied object, so
    rotation is off, the directory is ["log"], and it is created. *)
Lemma IogJs_constructor_eval (ctx : JsValue) (l : loc) (src : gmap string JsValue)
    (w : World) :
  ctx <> JUndefined -> heap w !! l = Some src ->
  IogJs.constructor ctx (Some l) w =
    let w1 := add_event (EMkdirp (JStr "log"))
                (with_heap (<[l := IogJs.defaults ∪ src]> (heap w)) w) in
    match mkdirp_sync (JStr "log") with
    | Returned _ => (Returned {| contextName := ctx; opts := l; _paused := false |}, w1)
    | Threw e => (Threw e, w1)
    end.
Proof.
  intros Hctx Hl. unfold IogJs.constructor, bind, ret, Object_assign, get_prop.
  rewrite (typeof_defined _ Hctx), Hl. cbn [default from_option id opts].
  rewrite !prop_of_insert.
  rewrite (IogJs_defaults_lookup src "rotation" (JBool false)) by reflexivity.
  cbn [truthy when ret].
  rewrite !prop_of_insert.
  rewrite (IogJs_defaults_lookup src "path" (JStr "log")) by reflexivity.
  cbn [truthy when ret]. unfold mkdirp, bind, emit, lift. cbn.
  by destruct (mkdirp_sync (JStr "log")).
Qed.

(** src/unnamed/part_000: the supplied properties are written over a fresh
    copy of the defaults; with rotation the directory is resolved under the
    context name and, with a truthy [deleteAge], the sweep starts. *)
Lemma Iog_constructor_eval (ctx : JsValue) (l : loc) (src : gmap string JsValue)
    (w : World) :
  ctx <> JUndefined -> heap w !! l = Some src ->
  Iog.constructor ctx (Some l) w =
    let t := fresh (dom (heap w)) in
    let this := {| contextName := ctx; opts := t; _paused := false |} in
    let cfg := src ∪ Iog.defaults in
    if truthy (cfg_of src "rotation")
    then match path_resolve (cfg_of src "path") ctx with
         | Threw e => (Threw e, with_heap (<[t := cfg]> (heap w)) w)
         | Returned r =>
             let w2 := with_heap (<[t := <["path" := JStr r]> cfg]> (heap w)) w in
             created this (JStr r)
               (if truthy (cfg_of src "deleteAge")
                then with_timers
                       (timers w ++ [{| delay := DAY_SECONDS; task := Sweep this |}])
                       (add_event
                          (EFindRemove (JStr r)
                             {| factor := cfg_of src "deleteAge"; times := DAY_SECONDS |}
                             [cfg_of src "logExt"]) w2)
                else w2)
         end
    else created this (cfg_of src "path") (with_heap (<[t := cfg]> (heap w)) w).
Proof.
  intros Hctx Hl.
  assert (Hne : l <> fresh (dom (heap w))) by (apply fresh_not_allocated; eauto).
  unfold Iog.constructor, bind, ret, alloc, own_props, object_at, Object_assign, get_prop.
  rewrite (typeof_defined _ Hctx). cbn [heap with_heap opts contextName].
  rewrite lookup_insert_eq, (lookup_insert_ne _ _ _ _ (not_eq_sym Hne)), Hl.
  cbn [default from_option id]. rewrite insert_insert_eq.
  rewrite with_heap_twice.
  rewrite !prop_of_insert. fold (cfg_of src "rotation").
  destruct (truthy (cfg_of src "rotation")); cbn [when ret].
  - rewrite !prop_of_insert. fold (cfg_of src "path").
    unfold lift. destruct (path_resolve (cfg_of src "path") ctx) as [r|e]; [|reflexivity].
    unfold set_prop. cbn [heap with_heap]. rewrite lookup_insert_eq.
    cbn [default from_option id]. rewrite insert_insert_eq, with_heap_twice.
    rewrite !prop_of_insert.
    assert (Hk : forall k, k <> "path" ->
              default JUndefined (<["path":=JStr r]> (src ∪ Iog.defaults) !! k)
              = cfg_of src k).
    { intros k Hk. unfold cfg_of. by rewrite lookup_insert_ne. }
    rewrite (Hk "deleteAge") by discriminate.
    destruct (truthy (cfg_of src "deleteAge")); cbn [when ret].
    + unfold _clear, bind, get_prop, emit, setTimeout. cbn [opts].
      rewrite !prop_of_insert, lookup_insert_eq.
      rewrite (Hk "deleteAge"), (Hk "logExt") by discriminate.
      cbn [default from_option id]. unfold prop_of.
      cbn [heap with_timers add_event with_heap].
      rewrite lookup_insert_eq. cbn [mbind option_bind]. rewrite lookup_insert_eq.
      cbn [default from_option id].
      apply mkdirp_created.
    + rewrite !prop_of_insert, lookup_insert_eq. apply mkdirp_created.
  - rewrite !prop_of_insert. apply mkdirp_created.
Qed.

Lemma _filePath_eval (this : Logger) (w : World) :
  _filePath this w =
    (Returned (file_of this w),
     if truthy (prop_of w (opts this) "rotation") then tick w else w).
Proof.
  unfold _filePath, file_of, bind, get_prop, new_Date, ret.
  destruct (truthy (prop_of w (opts this) "rotation")); reflexivity.
Qed.

Lemma _clear_eval (this : Logger) (w : World) :
  _clear this w =
    (Returned tt,
     with_timers (timers w ++ [{| delay := DAY_SECONDS; task := Sweep this |}])
       (add_event
          (EFindRemove (prop_of w (opts this) "path")
             {| factor := prop_of w (opts this) "deleteAge"; times := DAY_SECONDS |}
             [prop_of w (opts this) "logExt"]) w)).
Proof. reflexivity. Qed.

(** A write on a logger that is not paused, in src/unnamed/part_000. *)
Lemma Iog_write_eval (this : Logger) (msg type show : JsValue) (w : World) :
  _paused this = false ->
  Iog.write this msg type show w =
    let msg := default_param (JStr "") msg in
    let type := default_param (JStr "log") type in
    let show := default_param (JBool true) show in
    let body := text_of this msg type w in
    if truthy (prop_of w (opts this) "console") && truthy show
    then match console_method (console_method_of type) body with
         | Returned _ =>
             (Returned tt,
              requested this body type
                (add_event (EConsole (console_method_of type) body) (tick w)))
         | Threw e =>
             (Threw e, add_event (EConsole (console_method_of type) body) (tick w))
         end
    else (Returned tt, requested this body type (tick w)).
Proof.
  intros Hp. unfold Iog.write, text_of, requested. rewrite Hp.
  cbv beta iota zeta delta
    [bind new_Date get_prop ret when console_call emit lift appendFile Iog.slim_record].
  change (prop_of (tick w)) with (prop_of w).
  destruct (truthy (prop_of w (opts this) "slim")); cbv beta iota;
    change (prop_of (tick w)) with (prop_of w);
    (destruct (truthy (prop_of w (opts this) "console")
               && truthy (default_param (JBool true) show)); cbv beta iota;
     [ destruct (console_method _ _); [|reflexivity] | ];
     rewrite _filePath_eval; reflexivity).
Qed.

(** A write on a logger that is not paused, in src/src/iog.js. *)
Lemma IogJs_write_eval (this : Logger) (msg type show : JsValue) (w : World) :
  _paused this = false ->
  IogJs.write this msg type show w =
    let msg := default_param (JStr "") msg in
    let type := default_param (JStr "log") type in
    let show := default_param (JBool true) show in
    let body := block (contextName this)
                  (dateFormat (clock w (reads w)) "yyyy-mm-dd HH:MM:ss:l")
                  type (serialize_msg msg) (prop_of w (opts this) "separator") in
    if truthy (prop_of w (opts this) "console") && truthy show
    then match console_method (console_method_of type) body with
         | Returned _ =>
             (Returned tt,
              requested this body type
                (add_event (EConsole (console_method_of type) body) (tick w)))
         | Threw e =>
             (Threw e, add_event (EConsole (console_method_of type) body) (tick w))
         end
    else (Returned tt, requested this body type (tick w)).
Proof.
  intros Hp. unfold IogJs.write, requested. rewrite Hp.
  cbv beta iota zeta delta
    [bind new_Date get_prop ret when console_call emit lift appendFile].
  change (prop_of (tick w)) with (prop_of w).
  destruct (truthy (prop_of w (opts this) "console")
            && truthy (default_param (JBool true) show)); cbv beta iota;
    [ destruct (console_method _ _); [|reflexivity] | ];
    rewrite _filePath_eval; reflexivity.
Qed.

(** A write on a paused logger. *)
Lemma Iog_write_paused (this : Logger) (msg type show : JsValue) (w : World) :
  _paused this = true -> Iog.write this msg type show w = (Returned tt, w).
Proof. intros Hp. unfold Iog.write. by rewrite Hp. Qed.

Lemma IogJs_write_paused (this : Logger) (msg type show : JsValue) (w : World) :
  _paused this = true -> IogJs.write this msg type show w = (Returned tt, w).
Proof. intros Hp. unfold IogJs.write. by rewrite Hp. Qed.

End Evaluation.

(** ** Construction and the merge of the options *)

Section Construction.
Context `{Host}.

Lemma created_heap (this : Logger) (dir : JsValue) (w : World) :
  heap (snd (created this dir w)) = heap w.
Proof.
  unfold created. destruct (truthy dir); [|reflexivity].
  by destruct (mkdirp_sync dir).
Qed.

Lemma created_returned (this lg : Logger) (dir : JsValue) (w : World) :
  fst (created this dir w) = Returned lg -> lg = this.
Proof.
  unfold created. destruct (truthy dir); [destruct (mkdirp_sync dir)|]; simpl; congruence.
Qed.

(** src/src/iog.js: every default ends up in the supplied object, whatever
    the caller had put there. *)
Lemma IogJs_defaults_win (ctx : JsValue) (l : loc) (src : gmap string JsValue)
    (w : World) (k : string) (v : JsValue) :
  ctx <> JUndefined -> heap w !! l = Some src -> IogJs.defaults !! k = Some v ->
  prop_of (snd (IogJs.constructor ctx (Some l) w)) l k = v.
Proof.
  intros Hctx Hl Hk. rewrite (IogJs_constructor_eval ctx l src w Hctx Hl). cbv zeta.
  destruct (mkdirp_sync (JStr "log")); cbn [snd];
    change (prop_of (add_event ?e ?w)) with (prop_of w);
    rewrite prop_of_insert; by apply IogJs_defaults_lookup.
Qed.

(** src/unnamed/part_000 without rotation: the configuration is the supplied
    properties over the defaults, in a fresh object; the supplied object is
    left as it was. *)
Lemma Iog_supplied_wins (ctx : JsValue) (l : loc) (src : gmap string JsValue)
    (w : World) (k : string) :
  ctx <> JUndefined -> heap w !! l = Some src ->
  truthy (cfg_of src "rotation") = false ->
  let r := Iog.constructor ctx (Some l) w in
  prop_of (snd r) (fresh (dom (heap w))) k
  = match src !! k with
    | Some v => v
    | None => default JUndefined (Iog.defaults !! k)
    end
  /\ heap (snd r) !! l = Some src
  /\ (forall lg, fst r = Returned lg -> opts lg = fresh (dom (heap w))).
Proof.
  intros Hctx Hl Hrot r. subst r.
  assert (Hne : l <> fresh (dom (heap w))) by (apply fresh_not_allocated; eauto).
  rewrite (Iog_constructor_eval ctx l src w Hctx Hl). cbv zeta. rewrite Hrot.
  split; [|split].
  - unfold prop_of. rewrite created_heap. cbn [heap with_heap].
    rewrite lookup_insert_eq. cbn [mbind option_bind]. rewrite lookup_union.
    by destruct (src !! k), (Iog.defaults !! k).
  - rewrite created_heap. cbn [heap with_heap]. by rewrite lookup_insert_ne.
  - intros lg Hlg. by rewrite (created_returned _ _ _ _ Hlg).
Qed.

(** C1 (src/src/iog.js). The caller supplies [{console: false}]; after the
    constructor the configuration says [console: true]: the default has
    overwritten the supplied option, on every host. *)
Theorem C1_iogjs_default_overwrites_supplied_option :
  let supplied : gmap string JsValue := {[ "console" := JBool false ]} in
  let w' := snd (IogJs.constructor (JStr "ctx") (Some 0%nat)
                   (world_of [(0%nat, supplied)])) in
  supplied !! "console" = Some (JBool false)
  /\ prop_of w' 0%nat "console" = JBool true.
Proof.
  cbv zeta. split; [reflexivity|].
  apply (IogJs_defaults_win _ _ {[ "console" := JBool false ]}); try done.
Qed.

(** C10 (src/src/iog.js). The constructor merges into the object the caller
    passed: after it, that very object holds the defaults (over whatever it
    held), untouched keys stay, the logger's [opts] is the caller's object,
    and what the caller later writes into it is what the logger reads. *)
Theorem C10_iogjs_constructor_mutates_supplied_object
    (ctx : JsValue) (l : loc) (src : gmap string JsValue) (w : World) :
  ctx <> JUndefined -> heap w !! l = Some src ->
  let r := IogJs.constructor ctx (Some l) w in
  heap (snd r) !! l = Some (IogJs.defaults ∪ src)
  /\ (forall k v, IogJs.defaults !! k = Some v -> prop_of (snd r) l k = v)
  /\ (forall k, IogJs.defaults !! k = None -> prop_of (snd r) l k = prop_of w l k)
  /\ (forall lg, fst r = Returned lg -> opts lg = l)
  /\ (mkdirp_sync (JStr "log") = Returned tt ->
      fst r = Returned {| contextName := ctx; opts := l; _paused := false |})
  /\ (forall lg k v w2, fst r = Returned lg ->
      prop_of (snd (set_prop l k v w2)) (opts lg) k = v).
Proof.
  intros Hctx Hl r.
  assert (Hopts : forall lg, fst r = Returned lg -> opts lg = l).
  { subst r. rewrite (IogJs_constructor_eval ctx l src w Hctx Hl). cbv zeta.
    destruct (mkdirp_sync (JStr "log")); cbn [fst]; intros lg E; [|discriminate].
    by injection E as <-. }
  assert (Hheap : heap (snd r) !! l = Some (IogJs.defaults ∪ src)).
  { subst r. rewrite (IogJs_constructor_eval ctx l src w Hctx Hl). cbv zeta.
    destruct (mkdirp_sync (JStr "log")); cbn [snd heap add_event with_heap];
      apply lookup_insert_eq. }
  repeat split; try assumption.
  - intros k v Hk. by apply (IogJs_defaults_win ctx l src w k v).
  - intros k Hk. unfold prop_of. rewrite Hheap, Hl. cbn [mbind option_bind].
    by rewrite (lookup_union_r _ _ _ Hk).
  - intros Hmk. subst r. rewrite (IogJs_constructor_eval ctx l src w Hctx Hl).
    cbv zeta. by rewrite Hmk.
  - intros lg k v w2 Hlg. rewrite (Hopts lg Hlg). unfold set_prop. cbn [snd].
    rewrite prop_of_insert. by rewrite lookup_insert_eq.
Qed.

Lemma built_of_created (this : Logger) (dir : JsValue) (w : World) :
  _paused this = false ->
  built_or_host_threw (contextName this) (fst (created this dir w)).
Proof.
  intros Hp. unfold created.
  destruct (truthy dir); [destruct (mkdirp_sync dir) eqn:E|]; simpl; eauto.
Qed.

Lemma IogJs_constructor_built (ctx : JsValue) (o : option loc) (w : World) :
  ctx <> JUndefined -> (forall l, o = Some l -> is_Some (heap w !! l)) ->
  built_or_host_threw ctx (fst (IogJs.constructor ctx o w)).
Proof.
  intros Hctx Hwf.
  assert (Hsome : forall l w, is_Some (heap w !! l) ->
            built_or_host_threw ctx (fst (IogJs.constructor ctx (Some l) w))).
  { intros l w0 [src Hl]. rewrite (IogJs_constructor_eval ctx l src w0 Hctx Hl).
    cbv zeta. destruct (mkdirp_sync (JStr "log")) eqn:E; simpl; eauto. }
  destruct o as [l|].
  - apply Hsome. by apply Hwf.
  - rewrite IogJs_constructor_omitted. apply Hsome.
    cbn [heap with_heap]. rewrite lookup_insert_eq. eauto.
Qed.

Lemma Iog_constructor_built (ctx : JsValue) (o : option loc) (w : World) :
  ctx <> JUndefined -> (forall l, o = Some l -> is_Some (heap w !! l)) ->
  built_or_host_threw ctx (fst (Iog.constructor ctx o w)).
Proof.
  intros Hctx Hwf.
  assert (Hsome : forall l w, is_Some (heap w !! l) ->
            built_or_host_threw ctx (fst (Iog.constructor ctx (Some l) w))).
  { intros l w0 [src Hl]. rewrite (Iog_constructor_eval ctx l src w0 Hctx Hl).
    cbv zeta. destruct (truthy (cfg_of src "rotation")).
    - destruct (path_resolve (cfg_of src "path") ctx) eqn:E.
      + by apply (built_of_created {| contextName := ctx; opts := _; _paused := false |}).
      + simpl. eauto.
    - by apply (built_of_created {| contextName := ctx; opts := _; _paused := false |}). }
  destruct o as [l|].
  - apply Hsome. by apply Hwf.
  - rewrite Iog_constructor_omitted. apply Hsome.
    cbn [heap with_heap]. rewrite lookup_insert_eq. eauto.
Qed.

(** C3, as the code has it. Construction throws the [TypeError]
    "context name is required", and returns no logger, exactly when the
    context name is [undefined] (absent). For every other context name,
    the empty string among them, a failure can only be a throw of
    [path.resolve] or [mkdirp.sync]; otherwise the logger is returned with
    that context name. Both files. *)
Theorem C3_context_name_required_when_undefined
    (ctx : JsValue) (o : option loc) (w : World) :
  (forall l, o = Some l -> is_Some (heap w !! l)) ->
  (ctx = JUndefined
   /\ fst (IogJs.constructor ctx o w) = Threw context_name_required
   /\ fst (Iog.constructor ctx o w) = Threw context_name_required)
  \/ (ctx <> JUndefined
      /\ built_or_host_threw ctx (fst (IogJs.constructor ctx o w))
      /\ built_or_host_threw ctx (fst (Iog.constructor ctx o w))).
Proof.
  intros Hwf.
  assert (Hdec : ctx = JUndefined \/ ctx <> JUndefined)
    by (destruct ctx; (by left) || (by right)).
  destruct Hdec as [->|Hctx].
  - left. split; [reflexivity|].
    split; [apply IogJs_constructor_undefined | apply Iog_constructor_undefined].
  - right. split; [assumption|].
    split; [by apply IogJs_constructor_built | by apply Iog_constructor_built].
Qed.

End Construction.

(** ** The retention sweeper *)

Section Sweeper.
Context `{Host}.

Lemma sweeps_add_event (e : Event) (w : World) :
  sweeps (add_event e w) = (sweeps w ++ (if is_sweep e then [e] else []))%list.
Proof.
  unfold sweeps. cbn [events add_event]. rewrite List.filter_app. cbn [List.filter].
  by destruct (is_sweep e).
Qed.

Lemma created_sweeps (this : Logger) (dir : JsValue) (w : World) :
  sweeps (snd (created this dir w)) = sweeps w.
Proof.
  unfold created. destruct (truthy dir); [|reflexivity].
  destruct (mkdirp_sync dir); cbn [snd]; rewrite sweeps_add_event;
    cbn [is_sweep]; apply app_nil_r.
Qed.

Lemma created_timers (this : Logger) (dir : JsValue) (w : World) :
  timers (snd (created this dir w)) = timers w.
Proof.
  unfold created. destruct (truthy dir); [|reflexivity].
  by destruct (mkdirp_sync dir).
Qed.

(** A turn of the queue always returns: the timer that fires sweeps once
    and arms its successor, with the delay [DAY_SECONDS]. *)
Lemma fire_timer_eval (w : World) :
  fire_timer w =
    (Returned tt,
     match timers w with
     | [] => w
     | t :: rest =>
         match task t with
         | Sweep this =>
             with_timers (rest ++ [{| delay := DAY_SECONDS; task := Sweep this |}])
               (add_event
                  (EFindRemove (prop_of w (opts this) "path")
                     {| factor := prop_of w (opts this) "deleteAge";
                        times := DAY_SECONDS |}
                     [prop_of w (opts this) "logExt"]) w)
         end
     end).
Proof.
  unfold fire_timer. destruct (timers w) as [|t rest]; [reflexivity|].
  by destruct (task t).
Qed.

Lemma fire_timer_tasks (w : World) :
  map task (timers (snd (fire_timer w)))
  = match map task (timers w) with
    | [] => []
    | t :: rest => (rest ++ [t])%list
    end.
Proof.
  rewrite fire_timer_eval. cbn [snd].
  destruct (timers w) as [|t rest] eqn:E; [by rewrite E|].
  destruct t as [d [this]]. cbn [task with_timers timers map].
  by rewrite map_app.
Qed.

(** A task that is armed stays armed, however often the queue turns. *)
Lemma run_timers_keeps (k : nat) (w : World) (t : Task) :
  In t (map task (timers w)) -> In t (map task (timers (run_timers k w))).
Proof.
  revert w. induction k as [|k IH]; intros w Hin; [exact Hin|].
  cbn [run_timers]. apply IH. rewrite fire_timer_tasks.
  destruct (map task (timers w)) as [|t0 rest]; [contradiction|].
  apply in_or_app. destruct Hin as [->|Hin]; [right; by left | by left].
Qed.

(** Every turn of a queue that is not empty does one more sweep. *)
Lemma run_timers_sweeps (k : nat) (w : World) :
  timers w <> [] -> length (sweeps (run_timers k w)) = (length (sweeps w) + k)%nat.
Proof.
  revert w. induction k as [|k IH]; intros w Hne; [cbn; lia|].
  cbn [run_timers]. rewrite IH.
  - rewrite fire_timer_eval. cbn [snd].
    destruct (timers w) as [|t rest]; [contradiction|].
    destruct t as [d [this]]. cbn [task].
    change (sweeps (with_timers ?ts ?w0)) with (sweeps w0).
    rewrite sweeps_add_event. cbn [is_sweep]. rewrite length_app. cbn [length]. lia.
  - rewrite fire_timer_eval. cbn [snd].
    destruct (timers w) as [|t rest]; [contradiction|].
    destruct t as [d [this]]. cbn [task with_timers timers].
    by destruct rest.
Qed.

(** The timers armed by the sweeper all carry the delay [DAY_SECONDS]. *)
Lemma run_timers_delay (k : nat) (w : World) :
  Forall (fun t => delay t = DAY_SECONDS) (timers w) ->
  Forall (fun t => delay t = DAY_SECONDS) (timers (run_timers k w)).
Proof.
  revert w. induction k as [|k IH]; intros w Hall; [exact Hall|].
  cbn [run_timers]. apply IH. rewrite fire_timer_eval. cbn [snd].
  destruct (timers w) as [|t rest] eqn:E; [by rewrite E|].
  destruct t as [d [this]]. cbn [task with_timers timers].
  apply Forall_app. split; [by inversion Hall | by repeat constructor].
Qed.

(** C4, as the code has it (src/unnamed/part_000). When the merged
    configuration has rotation enabled and a [deleteAge] greater than zero,
    and [path.resolve] returns, the constructor sweeps once and arms the
    next sweep, whatever the other options are and whatever [mkdirp.sync]
    does; the sweep then stays armed however often the timer queue turns.
    When rotation is disabled the constructor does no sweep and arms no
    timer, whatever [deleteAge] is. *)
Theorem C4_sweeper_started_under_rotation_only
    (ctx : JsValue) (l : loc) (src : gmap string JsValue) (w : World) :
  ctx <> JUndefined -> heap w !! l = Some src ->
  let w' := snd (Iog.constructor ctx (Some l) w) in
  let this := {| contextName := ctx; opts := fresh (dom (heap w)); _paused := false |} in
  (forall (n : Z) (r : string),
     truthy (cfg_of src "rotation") = true ->
     cfg_of src "deleteAge" = JNum n -> 0 < n ->
     path_resolve (cfg_of src "path") ctx = Returned r ->
     sweeps w' = (sweeps w ++ [EFindRemove (JStr r)
                                 {| factor := JNum n; times := DAY_SECONDS |}
                                 [cfg_of src "logExt"]])%list
     /\ timers w' = (timers w ++ [{| delay := DAY_SECONDS; task := Sweep this |}])%list
     /\ (forall k, In (Sweep this) (map task (timers (run_timers k w')))))
  /\ (truthy (cfg_of src "rotation") = false ->
      sweeps w' = sweeps w /\ timers w' = timers w).
Proof.
  intros Hctx Hl w' this. split.
  - intros n r Hrot Hage Hn Hres.
    assert (Htruthy : truthy (cfg_of src "deleteAge") = true).
    { rewrite Hage. cbn [truthy]. apply negb_true_iff, Z.eqb_neq. lia. }
    assert (Htimers : timers w'
              = (timers w ++ [{| delay := DAY_SECONDS; task := Sweep this |}])%list).
    { subst w'. rewrite (Iog_constructor_eval ctx l src w Hctx Hl). cbv zeta.
      rewrite Hrot, Hres, Htruthy. by rewrite created_timers. }
    split; [|split].
    + subst w'. rewrite (Iog_constructor_eval ctx l src w Hctx Hl). cbv zeta.
      rewrite Hrot, Hres, Htruthy, Hage. rewrite created_sweeps.
      change (sweeps (with_timers ?ts ?w0)) with (sweeps w0).
      rewrite sweeps_add_event. reflexivity.
    + exact Htimers.
    + intros k. apply run_timers_keeps. rewrite Htimers, map_app.
      apply in_or_app. right. by left.
  - intros Hrot. subst w'. rewrite (Iog_constructor_eval ctx l src w Hctx Hl). cbv zeta.
    rewrite Hrot. by rewrite created_sweeps, created_timers.
Qed.

End Sweeper.

(** ** Writing *)

Section Writing.
Context `{Host}.

(** On a host whose console methods return, a write on a logger that is
    not paused returns, having requested one append. *)
Lemma Iog_write_returns (this : Logger) (msg type show : JsValue) (w : World) :
  _paused this = false -> (forall m t, console_method m t = Returned tt) ->
  let msg' := default_param (JStr "") msg in
  let type' := default_param (JStr "log") type in
  let body := text_of this msg' type' w in
  Iog.write this msg type show w =
    (Returned tt,
     requested this body type'
       (shown this type' (default_param (JBool true) show) body w)).
Proof.
  intros Hp Hcons. rewrite (Iog_write_eval _ _ _ _ _ Hp). cbv zeta. unfold shown.
  destruct (truthy (prop_of w (opts this) "console")
            && truthy (default_param (JBool true) show)); [|reflexivity].
  by rewrite Hcons.
Qed.

Lemma IogJs_write_returns (this : Logger) (msg type show : JsValue) (w : World) :
  _paused this = false -> (forall m t, console_method m t = Returned tt) ->
  let msg' := default_param (JStr "") msg in
  let type' := default_param (JStr "log") type in
  let body := block (contextName this)
                (dateFormat (clock w (reads w)) "yyyy-mm-dd HH:MM:ss:l")
                type' (serialize_msg msg') (prop_of w (opts this) "separator") in
  IogJs.write this msg type show w =
    (Returned tt,
     requested this body type'
       (shown this type' (default_param (JBool true) show) body w)).
Proof.
  intros Hp Hcons. rewrite (IogJs_write_eval _ _ _ _ _ Hp). cbv zeta. unfold shown.
  destruct (truthy (prop_of w (opts this) "console")
            && truthy (default_param (JBool true) show)); [|reflexivity].
  by rewrite Hcons.
Qed.

Lemma requested_last (this : Logger) (body : string) (type : JsValue) (w : World) :
  last (events (requested this body type w)) = Some (EAppendFile (file_of this w) body).
Proof.
  unfold requested. cbv zeta. cbn [events with_pending add_event].
  apply last_snoc.
Qed.

Lemma requested_pending (this : Logger) (body : string) (type : JsValue) (w : World) :
  pending (requested this body type w)
  = (pending w ++ [{| c_this := this; c_body := body; c_type := type |}])%list.
Proof.
  unfold requested. cbv zeta. cbn [pending with_pending add_event].
  by destruct (truthy (prop_of w (opts this) "rotation")).
Qed.

Lemma shown_pending (this : Logger) (type show : JsValue) (body : string) (w : World) :
  pending (shown this type show body w) = pending w.
Proof. unfold shown. by destruct (_ && _). Qed.

Lemma shown_prop (this : Logger) (type show : JsValue) (body : string) (w : World)
    (l : loc) (k : string) :
  prop_of (shown this type show body w) l k = prop_of w l k.
Proof. unfold shown. by destruct (_ && _). Qed.

Lemma shown_clock (this : Logger) (type show : JsValue) (body : string) (w : World) :
  clock (shown this type show body w) (reads (shown this type show body w))
  = clock w (S (reads w)).
Proof. unfold shown. by destruct (_ && _). Qed.

(** The path of the append that a write requests: the resolver is run
    after the date of the record was read, on a clock reading of its own. *)
Lemma file_of_shown (this : Logger) (type show : JsValue) (body : string) (w : World) :
  file_of this (shown this type show body w)
  = ToString (prop_of w (opts this) "path") +:+ "/" +:+
    (if truthy (prop_of w (opts this) "rotation")
     then dateFormat (clock w (S (reads w))) "yyyy-mm-dd"
     else ToString (contextName this)) +:+
    ToString (prop_of w (opts this) "logExt").
Proof.
  unfold file_of. rewrite !shown_prop, shown_clock.
  by destruct (truthy (prop_of w (opts this) "rotation")).
Qed.

(** C9. [_filePath()] gives [{path}/{contextName}{logExt}] without rotation
    and [{path}/{date of the clock reading, as yyyy-mm-dd}{logExt}] with
    rotation, reading the clock itself; and every write, in both files,
    appends to the path so computed at the time of that write (the reading
    that follows the one taken for the date of the record). *)
Theorem C9_file_path_resolved_on_each_write
    (this : Logger) (msg type show : JsValue) (w : World) :
  _paused this = false -> (forall m t, console_method m t = Returned tt) ->
  let dir := ToString (prop_of w (opts this) "path") in
  let ext := ToString (prop_of w (opts this) "logExt") in
  let rotation := truthy (prop_of w (opts this) "rotation") in
  _filePath this w =
    (Returned (dir +:+ "/" +:+
               (if rotation
                then dateFormat (clock w (reads w)) "yyyy-mm-dd"
                else ToString (contextName this)) +:+ ext),
     if rotation then tick w else w)
  /\ (exists body,
        last (events (snd (Iog.write this msg type show w)))
        = Some (EAppendFile
                  (dir +:+ "/" +:+
                   (if rotation
                    then dateFormat (clock w (S (reads w))) "yyyy-mm-dd"
                    else ToString (contextName this)) +:+ ext) body))
  /\ (exists body,
        last (events (snd (IogJs.write this msg type show w)))
        = Some (EAppendFile
                  (dir +:+ "/" +:+
                   (if rotation
                    then dateFormat (clock w (S (reads w))) "yyyy-mm-dd"
                    else ToString (contextName this)) +:+ ext) body)).
Proof.
  intros Hp Hcons dir ext rotation. split; [|split].
  - rewrite _filePath_eval. unfold file_of. subst dir ext rotation.
    by destruct (truthy (prop_of w (opts this) "rotation")).
  - eexists. rewrite (Iog_write_returns _ _ _ _ _ Hp Hcons). cbv zeta. cbn [snd].
    rewrite requested_last, file_of_shown. reflexivity.
  - eexists. rewrite (IogJs_write_returns _ _ _ _ _ Hp Hcons). cbv zeta. cbn [snd].
    rewrite requested_last, file_of_shown. reflexivity.
Qed.

(** C5, as the code has it. A write requests one append and leaves its
    callback pending with the rendered record and the type. When the append
    ends with an error, the callback rethrows it and calls nothing, in both
    files. When it ends without error, src/unnamed/part_000 calls
    [this.opts.onLog(body, type)] exactly when [this.opts.onLog] is a
    function at that time; src/src/iog.js, which has no [onLog], calls
    nothing. *)
Theorem C5_append_completion
    (this : Logger) (msg type show err : JsValue) (w w2 : World) :
  _paused this = false -> (forall m t, console_method m t = Returned tt) ->
  let type' := default_param (JStr "log") type in
  let onLog := prop_of w2 (opts this) "onLog" in
  (exists file body,
     let c := {| c_this := this; c_body := body; c_type := type' |} in
     fst (Iog.write this msg type show w) = Returned tt
     /\ last (events (snd (Iog.write this msg type show w)))
        = Some (EAppendFile file body)
     /\ pending (snd (Iog.write this msg type show w)) = (pending w ++ [c])%list
     /\ Iog.on_append c err w2
        = if truthy err then (Threw err, w2)
          else (Returned tt,
                if String.eqb (typeof onLog) "function"
                then add_event (ECall onLog [JStr body; type']) w2
                else w2))
  /\ (exists file body,
        let c := {| c_this := this; c_body := body; c_type := type' |} in
        fst (IogJs.write this msg type show w) = Returned tt
        /\ last (events (snd (IogJs.write this msg type show w)))
           = Some (EAppendFile file body)
        /\ pending (snd (IogJs.write this msg type show w)) = (pending w ++ [c])%list
        /\ IogJs.on_append c err w2
           = if truthy err then (Threw err, w2) else (Returned tt, w2)).
Proof.
  intros Hp Hcons type' onLog. split.
  - do 2 eexists. cbv zeta.
    rewrite (Iog_write_returns _ _ _ _ _ Hp Hcons). cbv zeta. cbn [fst snd].
    rewrite requested_last, requested_pending, shown_pending.
    do 3 (split; [reflexivity|]).
    unfold Iog.on_append. destruct (truthy err); [reflexivity|].
    unfold bind, get_prop, when, emit, ret. cbn [opts c_this c_body c_type].
    by destruct (String.eqb _ _).
  - do 2 eexists. cbv zeta.
    rewrite (IogJs_write_returns _ _ _ _ _ Hp Hcons). cbv zeta. cbn [fst snd].
    rewrite requested_last, requested_pending, shown_pending.
    do 3 (split; [reflexivity|]).
    unfold IogJs.on_append. by destruct (truthy err).
Qed.

Lemma string_app_assoc (a b c : string) : (a +:+ b) +:+ c = a +:+ (b +:+ c).
Proof.
  induction a as [|x a IH]; [reflexivity|].
  change ((String x a +:+ b) +:+ c) with (String x ((a +:+ b) +:+ c)).
  by rewrite IH.
Qed.

Lemma count_nl_app (a b : string) : count_nl (a +:+ b) = (count_nl a + count_nl b)%nat.
Proof.
  induction a as [|c a IH]; [reflexivity|].
  change (String c a +:+ b) with (String c (a +:+ b)).
  cbn [count_nl]. rewrite IH. lia.
Qed.

(** C6, as the code has it (src/unnamed/part_000). In slim mode the text
    written for a structured message that is not an error is the
    serialization, by the serializer's defaults, of the object with exactly
    the keys CONTEXT, DATE, TYPE, BODY in this order, followed by one line
    feed; the value of BODY in that object is the message itself, not a
    text: the message is serialized once, nested in the record. The text has
    one line feed more than the serializer's output, so it is a single line
    exactly when the serializer's output has none. With a serializer that
    writes objects member by member, and a context name and a type that it
    keeps, the text is the four members in braces, the last one being BODY
    followed by the serialization of the message. *)
Theorem C6_slim_record_holds_the_message_itself
    (this : Logger) (msg type show : JsValue) (w : World) :
  _paused this = false -> (forall m t, console_method m t = Returned tt) ->
  truthy (prop_of w (opts this) "slim") = true ->
  typeof msg = "object" -> isError msg = false ->
  let date := dateFormat (clock w (reads w)) "yyyy-mm-dd HH:MM:ss:l" in
  let record := [("CONTEXT", contextName this); ("DATE", JStr date);
                 ("TYPE", default_param (JStr "log") type); ("BODY", msg)] in
  let text := stringify (JObj record) None +:+ nl in
  fst (Iog.write this msg type show w) = Returned tt
  /\ (exists file,
        last (events (snd (Iog.write this msg type show w)))
        = Some (EAppendFile file text))
  /\ map fst record = ["CONTEXT"; "DATE"; "TYPE"; "BODY"]
  /\ (forall s, msg <> JStr s)
  /\ count_nl text = S (count_nl (stringify (JObj record) None))
  /\ (writes_objects_by_member ->
      serializable (contextName this) = true ->
      serializable (default_param (JStr "log") type) = true ->
      text = "{" +:+ join "," [member ("CONTEXT", contextName this);
                               member ("DATE", JStr date);
                               member ("TYPE", default_param (JStr "log") type);
                               member ("BODY", msg)] +:+ "}" +:+ nl).
Proof.
  intros Hp Hcons Hslim Hobj Herr date record text.
  assert (Hmsg : default_param (JStr "") msg = msg) by (by destruct msg).
  rewrite (Iog_write_returns _ _ _ _ _ Hp Hcons). cbv zeta. cbn [fst snd].
  rewrite requested_last. unfold text_of. rewrite Hslim, Hmsg.
  split; [reflexivity|]. split; [by eexists|]. split; [reflexivity|].
  split; [|split].
  - intros s ->. discriminate.
  - subst text. rewrite count_nl_app. change (count_nl nl) with 1%nat. lia.
  - intros Hlaw Hctx Htype. subst text. rewrite (Hlaw record).
    + subst record. cbn [map]. by rewrite !string_app_assoc.
    + subst record. cbn [forallb snd serializable]. rewrite Hctx, Htype.
      by destruct msg.
Qed.

(** C7, as the code has it. In the standard block (both files; in
    src/unnamed/part_000 when [slim] is off) a message that is an error is
    shown by its string conversion, [Error.prototype.toString]: the name, a
    colon and the message, or just one of them when the other is empty; it
    is not serialized. Any other structured message is shown by
    [stringify(msg, {replace: null, space: 2})]. *)
Theorem C7_standard_body_of_structured_message
    (this : Logger) (msg type show : JsValue) (w : World) :
  _paused this = false -> (forall m t, console_method m t = Returned tt) ->
  truthy (prop_of w (opts this) "slim") = false ->
  typeof msg = "object" ->
  let date := dateFormat (clock w (reads w)) "yyyy-mm-dd HH:MM:ss:l" in
  let shown_msg :=
    match msg with
    | JErr name message =>
        if String.eqb name "" then message
        else if String.eqb message "" then name
        else name +:+ ": " +:+ message
    | _ => stringify msg (Some {| replace := JNull; space := JNum 2 |})
    end in
  let text :=
    "CONTEXT: " +:+ ToString (contextName this) +:+ nl +:+
    "DATE: " +:+ date +:+ nl +:+
    "TYPE: " +:+ ToString (default_param (JStr "log") type) +:+ nl +:+
    "BODY:" +:+ nl +:+ nl +:+
    shown_msg +:+ ToString (prop_of w (opts this) "separator") in
  (fst (Iog.write this msg type show w) = Returned tt
   /\ exists file,
        last (events (snd (Iog.write this msg type show w)))
        = Some (EAppendFile file text))
  /\ (fst (IogJs.write this msg type show w) = Returned tt
      /\ exists file,
           last (events (snd (IogJs.write this msg type show w)))
           = Some (EAppendFile file text)).
Proof.
  intros Hp Hcons Hslim Hobj date shown_msg text.
  assert (Hmsg : default_param (JStr "") msg = msg) by (by destruct msg).
  assert (Hshown : ToString (serialize_msg msg) = shown_msg).
  { unfold serialize_msg. rewrite Hobj. subst shown_msg.
    destruct msg; try discriminate; reflexivity. }
  split.
  - rewrite (Iog_write_returns _ _ _ _ _ Hp Hcons). cbv zeta. cbn [fst snd].
    rewrite requested_last. unfold text_of. rewrite Hslim, Hmsg.
    split; [reflexivity|]. eexists. unfold block. rewrite Hshown. reflexivity.
  - rewrite (IogJs_write_returns _ _ _ _ _ Hp Hcons). cbv zeta. cbn [fst snd].
    rewrite requested_last, Hmsg.
    split; [reflexivity|]. eexists. unfold block. rewrite Hshown. reflexivity.
Qed.

Lemma write_all_paused
    (write : Logger -> JsValue -> JsValue -> JsValue -> M unit)
    (this : Logger) (calls : list (JsValue * JsValue * JsValue)) (w : World) :
  (forall msg type show w0, write this msg type show w0 = (Returned tt, w0)) ->
  write_all write this calls w = (Returned tt, w).
Proof.
  intros Hw. induction calls as [|[[msg type] show] rest IH]; [reflexivity|].
  cbn [write_all]. unfold bind. by rewrite Hw.
Qed.

(** C8. After [pause()], any sequence of writes returns and leaves the
    world as it was: nothing on the console, no append, no clock reading, no
    state changed. After [resume()] a write does what the write of a logger
    that was never paused does in the world as it was before the paused
    writes, so nothing of them is replayed. Both files. *)
Theorem C8_paused_writes_do_nothing
    (this : Logger) (calls : list (JsValue * JsValue * JsValue)) (w : World) :
  write_all Iog.write (pause this) calls w = (Returned tt, w)
  /\ write_all IogJs.write (pause this) calls w = (Returned tt, w)
  /\ _paused (resume (pause this)) = false
  /\ (forall msg type show,
        Iog.write (resume (pause this)) msg type show
          (snd (write_all Iog.write (pause this) calls w))
        = Iog.write (resume this) msg type show w)
  /\ (forall msg type show,
        IogJs.write (resume (pause this)) msg type show
          (snd (write_all IogJs.write (pause this) calls w))
        = IogJs.write (resume this) msg type show w).
Proof.
  assert (H1 : write_all Iog.write (pause this) calls w = (Returned tt, w)).
  { apply write_all_paused. intros. by apply Iog_write_paused. }
  assert (H2 : write_all IogJs.write (pause this) calls w = (Returned tt, w)).
  { apply write_all_paused. intros. by apply IogJs_write_paused. }
  repeat split; try assumption.
  - intros. by rewrite H1.
  - intros. by rewrite H2.
Qed.

End Writing.

(** * Further properties of the two classes *)

(** ** More on writing *)

Section MoreWriting.
Context `{Host}.

Lemma requested_events (this : Logger) (body : string) (type : JsValue) (w : World) :
  events (requested this body type w)
  = (events w ++ [EAppendFile (file_of this w) body])%list.
Proof.
  unfold requested. cbv zeta. cbn [events with_pending add_event].
  by destruct (truthy (prop_of w (opts this) "rotation")).
Qed.

Lemma shown_events (this : Logger) (type show : JsValue) (body : string) (w : World) :
  events (shown this type show body w)
  = (events w ++ (if truthy (prop_of w (opts this) "console") && truthy show
                  then [EConsole (console_method_of type) body] else []))%list.
Proof.
  unfold shown. destruct (_ && _); cbn [events add_event tick]; [reflexivity|].
  by rewrite app_nil_r.
Qed.

(** X1. When the console option and [show] are truthy, a write calls the
    console method named by the type, or [log] when the console has no
    property of that name, with the very text that it then appends to the
    file; nothing else is output. Both files. *)
Theorem X1_console_mirrors_the_file
    (this : Logger) (msg type show : JsValue) (w : World) :
  _paused this = false -> (forall m t, console_method m t = Returned tt) ->
  truthy (prop_of w (opts this) "console") = true ->
  truthy (default_param (JBool true) show) = true ->
  let name := ToString (default_param (JStr "log") type) in
  let method := if in_console name then name else "log" in
  (exists file body,
     events (snd (Iog.write this msg type show w))
     = (events w ++ [EConsole method body; EAppendFile file body])%list)
  /\ (exists file body,
        events (snd (IogJs.write this msg type show w))
        = (events w ++ [EConsole method body; EAppendFile file body])%list).
Proof.
  intros Hp Hcons Hc Hs name method. split.
  - do 2 eexists. rewrite (Iog_write_returns _ _ _ _ _ Hp Hcons). cbv zeta.
    cbn [snd]. rewrite requested_events, shown_events, Hc, Hs. cbn [andb].
    by rewrite <- app_assoc.
  - do 2 eexists. rewrite (IogJs_write_returns _ _ _ _ _ Hp Hcons). cbv zeta.
    cbn [snd]. rewrite requested_events, shown_events, Hc, Hs. cbn [andb].
    by rewrite <- app_assoc.
Qed.

(** X2. When the console method throws, the write throws the same value
    after the console call and requests no append: nothing is appended and
    no callback is left pending. Both files. *)
Theorem X2_console_failure_aborts_the_write
    (this : Logger) (msg type show e : JsValue) (w : World) :
  _paused this = false -> (forall m t, console_method m t = Threw e) ->
  truthy (prop_of w (opts this) "console") = true ->
  truthy (default_param (JBool true) show) = true ->
  (fst (Iog.write this msg type show w) = Threw e
   /\ appended (snd (Iog.write this msg type show w)) = appended w
   /\ pending (snd (Iog.write this msg type show w)) = pending w)
  /\ (fst (IogJs.write this msg type show w) = Threw e
      /\ appended (snd (IogJs.write this msg type show w)) = appended w
      /\ pending (snd (IogJs.write this msg type show w)) = pending w).
Proof.
  intros Hp Hcons Hc Hs. split.
  - rewrite (Iog_write_eval _ _ _ _ _ Hp). cbv zeta. rewrite Hc, Hs, Hcons.
    cbn [andb fst snd]. repeat split.
    unfold appended. cbn [events add_event tick].
    rewrite List.filter_app. cbn. apply app_nil_r.
  - rewrite (IogJs_write_eval _ _ _ _ _ Hp). cbv zeta. rewrite Hc, Hs, Hcons.
    cbn [andb fst snd]. repeat split.
    unfold appended. cbn [events add_event tick].
    rewrite List.filter_app. cbn. apply app_nil_r.
Qed.

(** X3. When the console option or [show] is falsy, the console is not
    called, whatever the host's console does, and the write returns having
    requested its append: the append is the only event. Both files. *)
Theorem X3_silent_write_still_appends
    (this : Logger) (msg type show : JsValue) (w : World) :
  _paused this = false ->
  truthy (prop_of w (opts this) "console")
  && truthy (default_param (JBool true) show) = false ->
  (fst (Iog.write this msg type show w) = Returned tt
   /\ exists file body,
        events (snd (Iog.write this msg type show w))
        = (events w ++ [EAppendFile file body])%list)
  /\ (fst (IogJs.write this msg type show w) = Returned tt
      /\ exists file body,
           events (snd (IogJs.write this msg type show w))
           = (events w ++ [EAppendFile file body])%list).
Proof.
  intros Hp Hc. split.
  - rewrite (Iog_write_eval _ _ _ _ _ Hp). cbv zeta. rewrite Hc. cbn [fst snd].
    split; [reflexivity|]. do 2 eexists. by rewrite requested_events.
  - rewrite (IogJs_write_eval _ _ _ _ _ Hp). cbv zeta. rewrite Hc. cbn [fst snd].
    split; [reflexivity|]. do 2 eexists. by rewrite requested_events.
Qed.


Lemma requested_frame (this : Logger) (body : string) (type : JsValue) (w : World) :
  heap (requested this body type w) = heap w
  /\ timers (requested this body type w) = timers w
  /\ clock (requested this body type w) = clock w
  /\ reads (requested this body type w)
     = (reads w + (if truthy (prop_of w (opts this) "rotation") then 1 else 0))%nat.
Proof.
  unfold requested. cbv zeta.
  destruct (truthy (prop_of w (opts this) "rotation"));
    cbn [heap timers clock reads with_pending add_event tick]; repeat split; lia.
Qed.

Lemma shown_frame (this : Logger) (type show : JsValue) (body : string) (w : World) :
  heap (shown this type show body w) = heap w
  /\ timers (shown this type show body w) = timers w
  /\ clock (shown this type show body w) = clock w
  /\ reads (shown this type show body w) = S (reads w).
Proof. unfold shown. by destruct (_ && _). Qed.

(** X4. A write that returns changes neither the options nor any other
    object, arms no timer, and leaves exactly one more callback pending; it
    reads the clock once, and once more when rotation is on (for the file
    name). Both files. *)
Theorem X4_write_leaves_options_and_timers
    (this : Logger) (msg type show : JsValue) (w : World) :
  _paused this = false -> (forall m t, console_method m t = Returned tt) ->
  let extra := if truthy (prop_of w (opts this) "rotation") then 2%nat else 1%nat in
  (heap (snd (Iog.write this msg type show w)) = heap w
   /\ timers (snd (Iog.write this msg type show w)) = timers w
   /\ reads (snd (Iog.write this msg type show w)) = (reads w + extra)%nat
   /\ length (pending (snd (Iog.write this msg type show w))) = S (length (pending w)))
  /\ (heap (snd (IogJs.write this msg type show w)) = heap w
      /\ timers (snd (IogJs.write this msg type show w)) = timers w
      /\ reads (snd (IogJs.write this msg type show w)) = (reads w + extra)%nat
      /\ length (pending (snd (IogJs.write this msg type show w)))
         = S (length (pending w))).
Proof.
  intros Hp Hcons extra.
  assert (Hframe : forall body type',
            let w' := requested this body type'
                        (shown this type' (default_param (JBool true) show) body w) in
            heap w' = heap w /\ timers w' = timers w
            /\ reads w' = (reads w + extra)%nat
            /\ length (pending w') = S (length (pending w))).
  { intros body type' w'. subst w'.
    destruct (requested_frame this body type'
                (shown this type' (default_param (JBool true) show) body w))
      as (Hh & Ht & _ & Hr).
    destruct (shown_frame this type' (default_param (JBool true) show) body w)
      as (Hh' & Ht' & _ & Hr').
    rewrite Hh, Ht, Hr, Hh', Ht', Hr', requested_pending, shown_pending, shown_prop.
    rewrite length_app. cbn [length]. subst extra.
    destruct (truthy (prop_of w (opts this) "rotation")); repeat split; lia. }
  split.
  - rewrite (Iog_write_returns _ _ _ _ _ Hp Hcons). cbv zeta. cbn [snd]. apply Hframe.
  - rewrite (IogJs_write_returns _ _ _ _ _ Hp Hcons). cbv zeta. cbn [snd]. apply Hframe.
Qed.

(** X5. In the standard block a message that is not an object (a string, a
    number, a boolean, a function; an omitted message is the empty string)
    is put into the body as its string, unserialized and unquoted, between
    the header and the separator of the options. Both files. *)
Theorem X5_plain_message_is_written_verbatim
    (this : Logger) (msg type show : JsValue) (w : World) :
  _paused this = false -> (forall m t, console_method m t = Returned tt) ->
  truthy (prop_of w (opts this) "slim") = false ->
  typeof (default_param (JStr "") msg) <> "object" ->
  let text :=
    "CONTEXT: " +:+ ToString (contextName this) +:+ nl +:+
    "DATE: " +:+ dateFormat (clock w (reads w)) "yyyy-mm-dd HH:MM:ss:l" +:+ nl +:+
    "TYPE: " +:+ ToString (default_param (JStr "log") type) +:+ nl +:+
    "BODY:" +:+ nl +:+ nl +:+
    ToString (default_param (JStr "") msg) +:+
    ToString (prop_of w (opts this) "separator") in
  (exists file,
     last (events (snd (Iog.write this msg type show w)))
     = Some (EAppendFile file text))
  /\ (exists file,
        last (events (snd (IogJs.write this msg type show w)))
        = Some (EAppendFile file text)).
Proof.
  intros Hp Hcons Hslim Hobj text.
  assert (Hser : serialize_msg (default_param (JStr "") msg) = default_param (JStr "") msg).
  { unfold serialize_msg.
    destruct (String.eqb (typeof (default_param (JStr "") msg)) "object") eqn:E;
      [|reflexivity].
    apply String.eqb_eq in E. contradiction. }
  split.
  - rewrite (Iog_write_returns _ _ _ _ _ Hp Hcons). cbv zeta. cbn [snd].
    rewrite requested_last. unfold text_of. rewrite Hslim, Hser. by eexists.
  - rewrite (IogJs_write_returns _ _ _ _ _ Hp Hcons). cbv zeta. cbn [snd].
    rewrite requested_last, Hser. by eexists.
Qed.

(** X6. In slim mode (src/unnamed/part_000) no message is converted before
    it is put into the record: a string, an error or an omitted message
    (the empty string) is the value of BODY as it is, and neither the
    separator nor [Error.prototype.toString] takes part in the text. *)
Theorem X6_slim_mode_converts_no_message
    (this : Logger) (msg type show : JsValue) (w : World) :
  _paused this = false -> (forall m t, console_method m t = Returned tt) ->
  truthy (prop_of w (opts this) "slim") = true ->
  let record :=
    JObj [("CONTEXT", contextName this);
          ("DATE", JStr (dateFormat (clock w (reads w)) "yyyy-mm-dd HH:MM:ss:l"));
          ("TYPE", default_param (JStr "log") type);
          ("BODY", default_param (JStr "") msg)] in
  exists file,
    last (events (snd (Iog.write this msg type show w)))
    = Some (EAppendFile file (stringify record None +:+ nl)).
Proof.
  intros Hp Hcons Hslim record.
  rewrite (Iog_write_returns _ _ _ _ _ Hp Hcons). cbv zeta. cbn [snd].
  rewrite requested_last. unfold text_of. rewrite Hslim. by eexists.
Qed.

Lemma wrappers_are_writes (this : Logger) (msg : JsValue) (w : World) :
  (Iog.error this msg w = Iog.write this msg (JStr "error") JUndefined w
   /\ Iog.warn this msg w = Iog.write this msg (JStr "warn") JUndefined w
   /\ Iog.info this msg w = Iog.write this msg (JStr "info") JUndefined w
   /\ Iog.trace this msg w = Iog.write this msg (JStr "trace") JUndefined w)
  /\ (IogJs.error this msg w = IogJs.write this msg (JStr "error") JUndefined w
      /\ IogJs.warn this msg w = IogJs.write this msg (JStr "warn") JUndefined w
      /\ IogJs.info this msg w = IogJs.write this msg (JStr "info") JUndefined w
      /\ IogJs.trace this msg w = IogJs.write this msg (JStr "trace") JUndefined w).
Proof.
  assert (Hd : default_param (JStr "") (default_param (JStr "") msg)
               = default_param (JStr "") msg) by (by destruct msg).
  unfold Iog.error, Iog.warn, Iog.info, Iog.trace, Iog.write,
    IogJs.error, IogJs.warn, IogJs.info, IogJs.trace, IogJs.write.
  rewrite Hd. repeat split.
Qed.

Lemma Iog_write_typed (this : Logger) (msg : JsValue) (n : string) (w : World) :
  _paused this = false -> (forall m t, console_method m t = Returned tt) ->
  truthy (prop_of w (opts this) "console") = true ->
  exists file,
    events (snd (Iog.write this msg (JStr n) JUndefined w))
    = (events w
       ++ [EConsole (if in_console n then n else "log")
             (text_of this (default_param (JStr "") msg) (JStr n) w);
           EAppendFile file (text_of this (default_param (JStr "") msg) (JStr n) w)])%list.
Proof.
  intros Hp Hcons Hc. eexists.
  rewrite (Iog_write_returns _ _ _ _ _ Hp Hcons). cbv zeta.
  cbn [snd]. rewrite requested_events, shown_events, Hc. cbn [andb default_param truthy].
  by rewrite <- app_assoc.
Qed.

Lemma IogJs_write_typed (this : Logger) (msg : JsValue) (n : string) (w : World) :
  _paused this = false -> (forall m t, console_method m t = Returned tt) ->
  truthy (prop_of w (opts this) "console") = true ->
  let body := block (contextName this)
                (dateFormat (clock w (reads w)) "yyyy-mm-dd HH:MM:ss:l") (JStr n)
                (serialize_msg (default_param (JStr "") msg))
                (prop_of w (opts this) "separator") in
  exists file,
    events (snd (IogJs.write this msg (JStr n) JUndefined w))
    = (events w
       ++ [EConsole (if in_console n then n else "log") body;
           EAppendFile file body])%list.
Proof.
  intros Hp Hcons Hc body. eexists.
  rewrite (IogJs_write_returns _ _ _ _ _ Hp Hcons). cbv zeta.
  cbn [snd]. rewrite requested_events, shown_events, Hc. cbn [andb default_param truthy].
  by rewrite <- app_assoc.
Qed.

(** X7. [error(msg)], [warn(msg)], [info(msg)] and [trace(msg)] are
    [write(msg, type)] with the type "error", "warn", "info" and "trace".
    With the console enabled they show the record on the console method of
    their own name ([log] when the console has none of that name) and append
    it; the record is the one [write] renders for that message and type: in
    src/unnamed/part_000 the slim record or the standard block, in
    src/src/iog.js the standard block, with an omitted message as the empty
    string. *)
Theorem X7_wrappers_log_under_their_own_name
    (this : Logger) (msg : JsValue) (w : World) :
  _paused this = false -> (forall m t, console_method m t = Returned tt) ->
  truthy (prop_of w (opts this) "console") = true ->
  let via n := if in_console n then n else "log" in
  let text n := text_of this (default_param (JStr "") msg) (JStr n) w in
  let block_js n :=
    block (contextName this) (dateFormat (clock w (reads w)) "yyyy-mm-dd HH:MM:ss:l")
      (JStr n) (serialize_msg (default_param (JStr "") msg))
      (prop_of w (opts this) "separator") in
  ((Iog.error this msg w = Iog.write this msg (JStr "error") JUndefined w
    /\ Iog.warn this msg w = Iog.write this msg (JStr "warn") JUndefined w
    /\ Iog.info this msg w = Iog.write this msg (JStr "info") JUndefined w
    /\ Iog.trace this msg w = Iog.write this msg (JStr "trace") JUndefined w)
   /\ (exists file, events (snd (Iog.error this msg w))
         = (events w ++ [EConsole (via "error") (text "error");
                         EAppendFile file (text "error")])%list)
   /\ (exists file, events (snd (Iog.warn this msg w))
         = (events w ++ [EConsole (via "warn") (text "warn");
                         EAppendFile file (text "warn")])%list)
   /\ (exists file, events (snd (Iog.info this msg w))
         = (events w ++ [EConsole (via "info") (text "info");
                         EAppendFile file (text "info")])%list)
   /\ (exists file, events (snd (Iog.trace this msg w))
         = (events w ++ [EConsole (via "trace") (text "trace");
                         EAppendFile file (text "trace")])%list))
  /\ ((IogJs.error this msg w = IogJs.write this msg (JStr "error") JUndefined w
       /\ IogJs.warn this msg w = IogJs.write this msg (JStr "warn") JUndefined w
       /\ IogJs.info this msg w = IogJs.write this msg (JStr "info") JUndefined w
       /\ IogJs.trace this msg w = IogJs.write this msg (JStr "trace") JUndefined w)
      /\ (exists file, events (snd (IogJs.error this msg w))
            = (events w ++ [EConsole (via "error") (block_js "error");
                            EAppendFile file (block_js "error")])%list)
      /\ (exists file, events (snd (IogJs.warn this msg w))
            = (events w ++ [EConsole (via "warn") (block_js "warn");
                            EAppendFile file (block_js "warn")])%list)
      /\ (exists file, events (snd (IogJs.info this msg w))
            = (events w ++ [EConsole (via "info") (block_js "info");
                            EAppendFile file (block_js "info")])%list)
      /\ (exists file, events (snd (IogJs.trace this msg w))
            = (events w ++ [EConsole (via "trace") (block_js "trace");
                            EAppendFile file (block_js "trace")])%list)).
Proof.
  intros Hp Hcons Hc via text block_js.
  destruct (wrappers_are_writes this msg w) as [HIog HJs].
  split.
  - split; [exact HIog|]. destruct HIog as (-> & -> & -> & ->).
    repeat split; by apply Iog_write_typed.
  - split; [exact HJs|]. destruct HJs as (-> & -> & -> & ->).
    repeat split; by apply IogJs_write_typed.
Qed.


Lemma appended_requested (this : Logger) (body : string) (type : JsValue) (w : World) :
  appended (requested this body type w)
  = (appended w ++ [EAppendFile (file_of this w) body])%list.
Proof.
  unfold appended. rewrite requested_events, List.filter_app. reflexivity.
Qed.

Lemma appended_shown (this : Logger) (type show : JsValue) (body : string) (w : World) :
  appended (shown this type show body w) = appended w.
Proof.
  unfold appended. rewrite shown_events, List.filter_app.
  destruct (_ && _); cbn [List.filter is_append]; apply app_nil_r.
Qed.

Lemma Iog_write_one_more (this : Logger) (msg type show : JsValue) (w : World) :
  _paused this = false -> (forall m t, console_method m t = Returned tt) ->
  fst (Iog.write this msg type show w) = Returned tt
  /\ one_more type w (snd (Iog.write this msg type show w)).
Proof.
  intros Hp Hcons. rewrite (Iog_write_returns _ _ _ _ _ Hp Hcons). cbv zeta.
  cbn [fst snd]. split; [reflexivity|]. unfold one_more.
  rewrite appended_requested, appended_shown, requested_pending, shown_pending.
  rewrite length_app, map_app. cbn [length map c_type].
  destruct (requested_frame this
              (text_of this (default_param (JStr "") msg) (default_param (JStr "log") type) w)
              (default_param (JStr "log") type)
              (shown this (default_param (JStr "log") type)
                 (default_param (JBool true) show)
                 (text_of this (default_param (JStr "") msg)
                    (default_param (JStr "log") type) w) w)) as (-> & -> & _).
  destruct (shown_frame this (default_param (JStr "log") type)
              (default_param (JBool true) show)
              (text_of this (default_param (JStr "") msg)
                 (default_param (JStr "log") type) w) w) as (-> & -> & _).
  repeat split; lia.
Qed.

Lemma IogJs_write_one_more (this : Logger) (msg type show : JsValue) (w : World) :
  _paused this = false -> (forall m t, console_method m t = Returned tt) ->
  fst (IogJs.write this msg type show w) = Returned tt
  /\ one_more type w (snd (IogJs.write this msg type show w)).
Proof.
  intros Hp Hcons. rewrite (IogJs_write_returns _ _ _ _ _ Hp Hcons). cbv zeta.
  cbn [fst snd]. split; [reflexivity|]. unfold one_more.
  rewrite appended_requested, appended_shown, requested_pending, shown_pending.
  rewrite length_app, map_app. cbn [length map c_type].
  match goal with
  | |- context [heap (requested ?t ?b ?ty ?w0)] =>
      destruct (requested_frame t b ty w0) as (-> & -> & _)
  end.
  match goal with
  | |- context [heap (shown ?t ?ty ?sh ?b ?w0)] =>
      destruct (shown_frame t ty sh b w0) as (-> & -> & _)
  end.
  repeat split; lia.
Qed.

Lemma write_all_one_more
    (write : Logger -> JsValue -> JsValue -> JsValue -> M unit) (this : Logger) :
  (forall msg type show w,
     fst (write this msg type show w) = Returned tt
     /\ one_more type w (snd (write this msg type show w))) ->
  forall (calls : list (JsValue * JsValue * JsValue)) (w : World),
    let w' := snd (write_all write this calls w) in
    fst (write_all write this calls w) = Returned tt
    /\ length (appended w') = (length (appended w) + length calls)%nat
    /\ map c_type (pending w')
       = (map c_type (pending w)
          ++ map (fun c => default_param (JStr "log") (snd (fst c))) calls)%list
    /\ heap w' = heap w /\ timers w' = timers w.
Proof.
  intros Hstep calls. induction calls as [|[[msg type] show] rest IH]; intros w w'.
  - subst w'. cbn. rewrite app_nil_r. repeat split; lia.
  - subst w'. cbn [write_all]. unfold bind.
    destruct (Hstep msg type show w) as (Hret & Happ & Hpend & Hheap & Htim).
    destruct (write this msg type show w) as [o w1]. cbn [fst snd] in *. subst o.
    destruct (IH w1) as (Hret' & Happ' & Hpend' & Hheap' & Htim').
    cbv zeta in *. rewrite Hret', Happ', Hpend', Hheap', Htim', Happ, Hpend, Hheap, Htim.
    cbn [length map fst snd]. rewrite <- app_assoc. repeat split; lia.
Qed.

(** X8. Any sequence of writes on a logger that is not paused returns and
    requests one append per call, leaving one callback pending per call, in
    the order of the calls and each with the type of its call; the options
    and the timers are as before. Both files. *)
Theorem X8_each_write_of_a_sequence_appends_once
    (this : Logger) (calls : list (JsValue * JsValue * JsValue)) (w : World) :
  _paused this = false -> (forall m t, console_method m t = Returned tt) ->
  let types := map (fun c => default_param (JStr "log") (snd (fst c))) calls in
  (fst (write_all Iog.write this calls w) = Returned tt
   /\ length (appended (snd (write_all Iog.write this calls w)))
      = (length (appended w) + length calls)%nat
   /\ map c_type (pending (snd (write_all Iog.write this calls w)))
      = (map c_type (pending w) ++ types)%list
   /\ heap (snd (write_all Iog.write this calls w)) = heap w
   /\ timers (snd (write_all Iog.write this calls w)) = timers w)
  /\ (fst (write_all IogJs.write this calls w) = Returned tt
      /\ length (appended (snd (write_all IogJs.write this calls w)))
         = (length (appended w) + length calls)%nat
      /\ map c_type (pending (snd (write_all IogJs.write this calls w)))
         = (map c_type (pending w) ++ types)%list
      /\ heap (snd (write_all IogJs.write this calls w)) = heap w
      /\ timers (snd (write_all IogJs.write this calls w)) = timers w).
Proof.
  intros Hp Hcons types. split.
  - apply (write_all_one_more Iog.write this); intros; by apply Iog_write_one_more.
  - apply (write_all_one_more IogJs.write this); intros; by apply IogJs_write_one_more.
Qed.

End MoreWriting.

Lemma string_app_length (a b : string) :
  String.length (a +:+ b) = (String.length a + String.length b)%nat.
Proof.
  induction a as [|x a IH]; [reflexivity|].
  change (String x a +:+ b) with (String x (a +:+ b)). cbn [String.length].
  by rewrite IH.
Qed.

Lemma string_app_inv_head (a x y : string) : a +:+ x = a +:+ y -> x = y.
Proof.
  induction a as [|c a IH]; [done|].
  change (String c a +:+ x) with (String c (a +:+ x)).
  change (String c a +:+ y) with (String c (a +:+ y)).
  intros E. apply IH. by injection E.
Qed.

Lemma string_app_inv_tail (x y c : string) : x +:+ c = y +:+ c -> x = y.
Proof.
  revert y. induction x as [|a x IH]; intros [|b y] E.
  - reflexivity.
  - apply (f_equal String.length) in E. rewrite !string_app_length in E.
    cbn [String.length] in E. lia.
  - apply (f_equal String.length) in E. rewrite !string_app_length in E.
    cbn [String.length] in E. lia.
  - change (String a x +:+ c) with (String a (x +:+ c)) in E.
    change (String b y +:+ c) with (String b (y +:+ c)) in E.
    injection E as -> E. f_equal. by apply IH.
Qed.

Section Rotation.
Context `{Host}.

(** X9. One file per date. With the same options, two calls of
    [_filePath()] under rotation give the same path exactly when their
    clock readings have the same [yyyy-mm-dd] date; without rotation they
    give the same path whatever the clock says. *)
Theorem X9_rotation_gives_one_file_per_date (this : Logger) (w1 w2 : World) :
  (forall k, prop_of w1 (opts this) k = prop_of w2 (opts this) k) ->
  if truthy (prop_of w1 (opts this) "rotation")
  then fst (_filePath this w1) = fst (_filePath this w2)
       <-> dateFormat (clock w1 (reads w1)) "yyyy-mm-dd"
           = dateFormat (clock w2 (reads w2)) "yyyy-mm-dd"
  else fst (_filePath this w1) = fst (_filePath this w2).
Proof.
  intros Hsame. rewrite !_filePath_eval. cbn [fst]. unfold file_of.
  rewrite <- !Hsame.
  destruct (truthy (prop_of w1 (opts this) "rotation")); [|reflexivity].
  cbn [ToString]. split.
  - intros E. injection E as E.
    apply string_app_inv_head in E. apply string_app_inv_head in E.
    by apply string_app_inv_tail in E.
  - by intros ->.
Qed.

End Rotation.

(** ** More on construction *)

Section MoreConstruction.
Context `{Host}.

Lemma cfg_of_merged (src : gmap string JsValue) (k : string) :
  cfg_of src k = match src !! k with
                 | Some v => v
                 | None => default JUndefined (Iog.defaults !! k)
                 end.
Proof. unfold cfg_of. rewrite lookup_union. by destruct (src !! k), (Iog.defaults !! k). Qed.

(** The heap after the constructor of src/unnamed/part_000: one object
    more, the configuration. *)
Lemma Iog_constructor_heap (ctx : JsValue) (l : loc) (src : gmap string JsValue)
    (w : World) :
  ctx <> JUndefined -> heap w !! l = Some src ->
  heap (snd (Iog.constructor ctx (Some l) w))
  = <[fresh (dom (heap w)) :=
        if truthy (cfg_of src "rotation")
        then match path_resolve (cfg_of src "path") ctx with
             | Returned r => <["path" := JStr r]> (src ∪ Iog.defaults)
             | Threw _ => src ∪ Iog.defaults
             end
        else src ∪ Iog.defaults]> (heap w).
Proof.
  intros Hctx Hl. rewrite (Iog_constructor_eval ctx l src w Hctx Hl). cbv zeta.
  destruct (truthy (cfg_of src "rotation")).
  - destruct (path_resolve (cfg_of src "path") ctx); [|reflexivity].
    rewrite created_heap. by destruct (truthy (cfg_of src "deleteAge")).
  - by rewrite created_heap.
Qed.

(** The logger that the constructor of src/unnamed/part_000 returns. *)
Lemma Iog_constructor_returned (ctx : JsValue) (l : loc) (src : gmap string JsValue)
    (w : World) (this : Logger) :
  ctx <> JUndefined -> heap w !! l = Some src ->
  fst (Iog.constructor ctx (Some l) w) = Returned this ->
  this = {| contextName := ctx; opts := fresh (dom (heap w)); _paused := false |}.
Proof.
  intros Hctx Hl Hthis.
  rewrite (Iog_constructor_eval ctx l src w Hctx Hl) in Hthis. cbv zeta in Hthis.
  destruct (truthy (cfg_of src "rotation")).
  - destruct (path_resolve (cfg_of src "path") ctx); [|discriminate].
    by apply created_returned in Hthis.
  - by apply created_returned in Hthis.
Qed.

(** X10. The constructor of src/unnamed/part_000 never writes into the
    object the caller passed, nor into any other object there is: it
    allocates exactly one new object, the configuration, and the logger it
    returns refers to that one. *)
Theorem X10_iog_constructor_leaves_supplied_object
    (ctx : JsValue) (l : loc) (src : gmap string JsValue) (w : World) :
  ctx <> JUndefined -> heap w !! l = Some src ->
  let r := Iog.constructor ctx (Some l) w in
  let t := fresh (dom (heap w)) in
  heap (snd r) !! l = Some src
  /\ (forall l', l' <> t -> heap (snd r) !! l' = heap w !! l')
  /\ heap w !! t = None
  /\ is_Some (heap (snd r) !! t)
  /\ (forall this, fst r = Returned this -> opts this = t /\ opts this <> l).
Proof.
  intros Hctx Hl r t.
  assert (Hne : l <> t) by (apply fresh_not_allocated; eauto).
  assert (Hother : forall l', l' <> t -> heap (snd r) !! l' = heap w !! l').
  { intros l' Hl'. subst r t. rewrite (Iog_constructor_heap ctx l src w Hctx Hl).
    by rewrite lookup_insert_ne. }
  split; [by rewrite (Hother l Hne)|]. split; [exact Hother|]. split; [|split].
  - subst t. apply not_elem_of_dom. apply is_fresh.
  - subst r t. rewrite (Iog_constructor_heap ctx l src w Hctx Hl).
    rewrite lookup_insert_eq. eauto.
  - intros this Hthis. subst r t.
    rewrite (Iog_constructor_returned ctx l src w this Hctx Hl Hthis).
    cbn [opts]. split; [reflexivity | by apply not_eq_sym].
Qed.

(** X11. The configuration of src/unnamed/part_000: every option is the
    supplied one when the caller supplied it (be it [undefined]) and the
    default otherwise; only [path], under rotation, is replaced by what
    [path.resolve(path, contextName)] returns, and stays as merged when
    that call throws. *)
Theorem X11_iog_configuration_is_supplied_over_defaults
    (ctx : JsValue) (l : loc) (src : gmap string JsValue) (w : World) :
  ctx <> JUndefined -> heap w !! l = Some src ->
  let w' := snd (Iog.constructor ctx (Some l) w) in
  let t := fresh (dom (heap w)) in
  let merged k := match src !! k with
                  | Some v => v
                  | None => default JUndefined (Iog.defaults !! k)
                  end in
  (forall k, k <> "path" -> prop_of w' t k = merged k)
  /\ prop_of w' t "path"
     = if truthy (merged "rotation")
       then match path_resolve (merged "path") ctx with
            | Returned r => JStr r
            | Threw _ => merged "path"
            end
       else merged "path".
Proof.
  intros Hctx Hl w' t merged.
  assert (Hm : forall k, merged k = cfg_of src k) by (intros; by rewrite cfg_of_merged).
  rewrite !Hm. split.
  - intros k Hk. rewrite Hm. unfold prop_of. subst w' t.
    rewrite (Iog_constructor_heap ctx l src w Hctx Hl), lookup_insert_eq.
    cbn [mbind option_bind].
    destruct (truthy (cfg_of src "rotation")); [|reflexivity].
    destruct (path_resolve (cfg_of src "path") ctx); [|reflexivity].
    by rewrite lookup_insert_ne.
  - unfold prop_of. subst w' t.
    rewrite (Iog_constructor_heap ctx l src w Hctx Hl), lookup_insert_eq.
    cbn [mbind option_bind].
    destruct (truthy (cfg_of src "rotation")); [|reflexivity].
    destruct (path_resolve (cfg_of src "path") ctx); [|reflexivity].
    by rewrite lookup_insert_eq.
Qed.

(** X12. Under rotation, when [path.resolve] throws (a context name that is
    not a string, say), the constructor of src/unnamed/part_000 throws the
    same value before anything is done outside: no sweep, no timer, no
    directory. *)
Theorem X12_iog_constructor_fails_with_path_resolve
    (ctx e : JsValue) (l : loc) (src : gmap string JsValue) (w : World) :
  ctx <> JUndefined -> heap w !! l = Some src ->
  truthy (cfg_of src "rotation") = true ->
  path_resolve (cfg_of src "path") ctx = Threw e ->
  let r := Iog.constructor ctx (Some l) w in
  fst r = Threw e
  /\ events (snd r) = events w
  /\ timers (snd r) = timers w
  /\ pending (snd r) = pending w.
Proof.
  intros Hctx Hl Hrot He r. subst r.
  rewrite (Iog_constructor_eval ctx l src w Hctx Hl). cbv zeta.
  by rewrite Hrot, He.
Qed.

Lemma created_dirs (this : Logger) (dir : JsValue) (w : World) :
  events (snd (created this dir w))
  = (events w ++ (if truthy dir then [EMkdirp dir] else []))%list.
Proof.
  unfold created. destruct (truthy dir); [|by rewrite app_nil_r].
  by destruct (mkdirp_sync dir).
Qed.

Lemma created_result (this : Logger) (dir : JsValue) (w : World) :
  fst (created this dir w)
  = if truthy dir
    then match mkdirp_sync dir with
         | Returned _ => Returned this
         | Threw e => Threw e
         end
    else Returned this.
Proof.
  unfold created. destruct (truthy dir); [|reflexivity].
  by destruct (mkdirp_sync dir).
Qed.

(** X13. The directory of the logs (src/unnamed/part_000): the merged
    [path], or under rotation what [path.resolve] returned. When it is
    truthy, [mkdirp.sync] is the last thing the constructor does, and a
    throw of it is the constructor's; when it is falsy (the empty string)
    no directory is created and the logger is returned. *)
Theorem X13_iog_constructor_creates_the_directory
    (ctx : JsValue) (l : loc) (src : gmap string JsValue) (w : World) (r : string) :
  ctx <> JUndefined -> heap w !! l = Some src ->
  (truthy (cfg_of src "rotation") = true ->
   path_resolve (cfg_of src "path") ctx = Returned r) ->
  let dir := if truthy (cfg_of src "rotation") then JStr r else cfg_of src "path" in
  let this := {| contextName := ctx; opts := fresh (dom (heap w)); _paused := false |} in
  let res := Iog.constructor ctx (Some l) w in
  if truthy dir
  then last (events (snd res)) = Some (EMkdirp dir)
       /\ fst res = match mkdirp_sync dir with
                    | Returned _ => Returned this
                    | Threw e => Threw e
                    end
  else fst res = Returned this
       /\ (forall d, ~ In (EMkdirp d) (events w) -> ~ In (EMkdirp d) (events (snd res))).
Proof.
  intros Hctx Hl Hres dir this res. subst res dir.
  rewrite (Iog_constructor_eval ctx l src w Hctx Hl). cbv zeta.
  destruct (truthy (cfg_of src "rotation")).
  - rewrite (Hres eq_refl). fold this. rewrite created_result, created_dirs.
    destruct (truthy (JStr r)).
    + split; [apply last_snoc | reflexivity].
    + split; [reflexivity|]. intros d Hd. rewrite app_nil_r.
      destruct (truthy (cfg_of src "deleteAge")); [|exact Hd].
      cbn [events with_timers add_event with_heap]. rewrite in_app_iff.
      intros [Hin|[Hin|[]]]; [by apply Hd | discriminate].
  - fold this. rewrite created_result, created_dirs.
    destruct (truthy (cfg_of src "path")).
    + split; [apply last_snoc | reflexivity].
    + split; [reflexivity|]. intros d Hd. by rewrite app_nil_r.
Qed.

(** X19. The configuration of src/unnamed/part_000 is a copy: what the
    caller writes into the options object after the construction does not
    reach the logger. *)
Theorem X19_iog_configuration_is_a_copy
    (ctx : JsValue) (l : loc) (src : gmap string JsValue) (w : World)
    (this : Logger) (k k' : string) (v : JsValue) :
  ctx <> JUndefined -> heap w !! l = Some src ->
  fst (Iog.constructor ctx (Some l) w) = Returned this ->
  let w' := snd (Iog.constructor ctx (Some l) w) in
  prop_of (snd (set_prop l k v w')) l k = v
  /\ prop_of (snd (set_prop l k v w')) (opts this) k' = prop_of w' (opts this) k'.
Proof.
  intros Hctx Hl Hthis w'.
  assert (Hne : opts this <> l).
  { rewrite (Iog_constructor_returned ctx l src w this Hctx Hl Hthis). cbn [opts].
    apply not_eq_sym, fresh_not_allocated. eauto. }
  unfold set_prop. cbn [snd]. split.
  - rewrite prop_of_insert. by rewrite lookup_insert_eq.
  - unfold prop_of. cbn [heap with_heap]. by rewrite lookup_insert_ne.
Qed.

End MoreConstruction.

Section Quiet.
Context `{Host}.

Lemma outputs_add_event (e : Event) (w : World) :
  outputs (add_event e w) = (outputs w ++ (if is_output e then [e] else []))%list.
Proof.
  unfold outputs. cbn [events add_event]. rewrite List.filter_app. cbn [List.filter].
  by destruct (is_output e).
Qed.

Lemma created_quiet (this : Logger) (dir : JsValue) (w : World) :
  outputs (snd (created this dir w)) = outputs w
  /\ pending (snd (created this dir w)) = pending w
  /\ reads (snd (created this dir w)) = reads w.
Proof.
  unfold created. destruct (truthy dir); [|done].
  destruct (mkdirp_sync dir); cbn [snd]; rewrite outputs_add_event;
    cbn [is_output]; by rewrite app_nil_r.
Qed.

(** X14. Neither constructor appends a record, calls the console or a
    callback, leaves a callback pending or reads the clock, whatever the
    options and whether it returns or throws: no record is written before
    the first write. (What a constructor does do outside, the sweep of old
    log files and the creation of the directory, is not counted here.)
    Both files. *)
Theorem X14_constructors_output_nothing
    (ctx : JsValue) (l : loc) (src : gmap string JsValue) (w : World) :
  heap w !! l = Some src ->
  (outputs (snd (Iog.constructor ctx (Some l) w)) = outputs w
   /\ pending (snd (Iog.constructor ctx (Some l) w)) = pending w
   /\ reads (snd (Iog.constructor ctx (Some l) w)) = reads w)
  /\ (outputs (snd (IogJs.constructor ctx (Some l) w)) = outputs w
      /\ pending (snd (IogJs.constructor ctx (Some l) w)) = pending w
      /\ reads (snd (IogJs.constructor ctx (Some l) w)) = reads w).
Proof.
  intros Hl.
  assert (Hdec : ctx = JUndefined \/ ctx <> JUndefined)
    by (destruct ctx; (by left) || (by right)).
  destruct Hdec as [->|Hctx]; [done|]. split.
  - rewrite (Iog_constructor_eval ctx l src w Hctx Hl). cbv zeta.
    destruct (truthy (cfg_of src "rotation")).
    + destruct (path_resolve (cfg_of src "path") ctx); [|done].
      match goal with
      | |- context [created ?t ?d ?w0] => destruct (created_quiet t d w0) as (-> & -> & ->)
      end.
      destruct (truthy (cfg_of src "deleteAge")); [|done].
      change (outputs (with_timers ?ts ?w0)) with (outputs w0).
      rewrite outputs_add_event. cbn [is_output]. by rewrite app_nil_r.
    + match goal with
      | |- context [created ?t ?d ?w0] => destruct (created_quiet t d w0) as (-> & -> & ->)
      end.
      done.
  - rewrite (IogJs_constructor_eval ctx l src w Hctx Hl). cbv zeta.
    destruct (mkdirp_sync (JStr "log")); cbn [snd]; rewrite outputs_add_event;
      cbn [is_output]; by rewrite app_nil_r.
Qed.

(** X15. The options supplied to the constructor of src/src/iog.js have no
    effect. Whatever the caller's object holds, the constructor starts no
    sweep, arms no timer and creates the directory [log]; and in every later
    world in which the options object is as the constructor left it (the
    caller has not written into it since), a write that is shown goes to
    the console and to the file [log/{contextName}.log], as a standard block
    closed by the default separator, and leaves the options object as it
    was, so that the same holds of the next write. *)
Theorem X15_iogjs_ignores_supplied_options
    (ctx : JsValue) (l : loc) (src : gmap string JsValue) (w w2 : World)
    (msg type show : JsValue) :
  ctx <> JUndefined -> heap w !! l = Some src ->
  (forall m t, console_method m t = Returned tt) ->
  mkdirp_sync (JStr "log") = Returned tt ->
  truthy (default_param (JBool true) show) = true ->
  heap w2 !! l = heap (snd (IogJs.constructor ctx (Some l) w)) !! l ->
  let w' := snd (IogJs.constructor ctx (Some l) w) in
  let this := {| contextName := ctx; opts := l; _paused := false |} in
  let type' := default_param (JStr "log") type in
  let body := block ctx (dateFormat (clock w2 (reads w2)) "yyyy-mm-dd HH:MM:ss:l") type'
                (serialize_msg (default_param (JStr "") msg)) (JStr SEPARATOR) in
  fst (IogJs.constructor ctx (Some l) w) = Returned this
  /\ timers w' = timers w
  /\ sweeps w' = sweeps w
  /\ events w' = (events w ++ [EMkdirp (JStr "log")])%list
  /\ events (snd (IogJs.write this msg type show w2))
     = (events w2 ++ [EConsole (console_method_of type') body;
                      EAppendFile ("log/" +:+ ToString ctx +:+ ".log") body])%list
  /\ heap (snd (IogJs.write this msg type show w2)) !! l = heap w' !! l.
Proof.
  intros Hctx Hl Hcons Hmk Hshow Hkept w' this type' body.
  split.
  { rewrite (IogJs_constructor_eval ctx l src w Hctx Hl). cbv zeta. by rewrite Hmk. }
  assert (Hw' : w' = add_event (EMkdirp (JStr "log"))
                       (with_heap (<[l := IogJs.defaults ∪ src]> (heap w)) w)).
  { subst w'. rewrite (IogJs_constructor_eval ctx l src w Hctx Hl). cbv zeta.
    by destruct (mkdirp_sync (JStr "log")). }
  fold w' in Hkept.
  assert (Hprop : forall k v, IogJs.defaults !! k = Some v -> prop_of w2 l k = v).
  { intros k v Hk. unfold prop_of. rewrite Hkept, Hw'. cbn [heap add_event with_heap].
    rewrite lookup_insert_eq. cbn [mbind option_bind]. by apply IogJs_defaults_lookup. }
  split; [by rewrite Hw'|]. split.
  { rewrite Hw'. unfold sweeps. cbn [events add_event with_heap].
    rewrite List.filter_app. cbn. apply app_nil_r. }
  split; [by rewrite Hw'|]. subst this type' body.
  rewrite (IogJs_write_returns {| contextName := ctx; opts := l; _paused := false |}
             msg type show w2 eq_refl Hcons). cbv zeta.
  cbn [snd]. split.
  - rewrite requested_events, shown_events, file_of_shown.
    cbn [opts contextName].
    rewrite (Hprop "console" (JBool true)), (Hprop "rotation" (JBool false)),
      (Hprop "path" (JStr "log")), (Hprop "logExt" (JStr ".log")),
      (Hprop "separator" (JStr SEPARATOR)) by reflexivity.
    rewrite Hshow. cbn [truthy andb ToString].
    by rewrite <- app_assoc.
  - match goal with
    | |- context [heap (requested ?t ?b ?ty ?w0)] =>
        destruct (requested_frame t b ty w0) as (-> & _)
    end.
    match goal with
    | |- context [heap (shown ?t ?ty ?sh ?b ?w0)] =>
        destruct (shown_frame t ty sh b w0) as (-> & _)
    end.
    exact Hkept.
Qed.

End Quiet.

Section MoreSweeper.
Context `{Host}.

Lemma fire_timer_frame (w : World) :
  let w' := snd (fire_timer w) in
  length (timers w') = length (timers w)
  /\ heap w' = heap w /\ pending w' = pending w /\ reads w' = reads w
  /\ outputs w' = outputs w.
Proof.
  cbv zeta. rewrite fire_timer_eval. cbn [snd].
  destruct (timers w) as [|t rest] eqn:E; [by rewrite E|].
  destruct t as [d [this]]. cbn [task timers heap pending reads with_timers add_event].
  rewrite length_app. cbn [length].
  change (outputs (with_timers ?ts ?w0)) with (outputs w0).
  rewrite outputs_add_event. cbn [is_output]. rewrite app_nil_r.
  repeat split; lia.
Qed.

(** X16. Once a sweep is armed it never ends and never does anything but
    sweep: however often the timer queue turns, the queue keeps its length,
    every turn does exactly one more sweep and re-arms it with the delay
    [DAY_SECONDS], and the options, the pending callbacks, the clock and
    what was output stay as they were. *)
Theorem X16_sweeps_go_on_and_touch_nothing_else (k : nat) (w : World) :
  timers w <> [] ->
  Forall (fun t => delay t = DAY_SECONDS) (timers w) ->
  let w' := run_timers k w in
  length (timers w') = length (timers w)
  /\ length (sweeps w') = (length (sweeps w) + k)%nat
  /\ Forall (fun t => delay t = DAY_SECONDS) (timers w')
  /\ heap w' = heap w /\ pending w' = pending w /\ reads w' = reads w
  /\ outputs w' = outputs w.
Proof.
  intros Hne Hall w'. subst w'.
  split; [|split; [by apply run_timers_sweeps | split; [by apply run_timers_delay|]]].
  - clear Hne Hall. revert w. induction k as [|k IH]; intros w; [reflexivity|].
    cbn [run_timers]. rewrite IH. by destruct (fire_timer_frame w) as (-> & _).
  - clear Hne Hall. revert w. induction k as [|k IH]; intros w; [done|].
    cbn [run_timers]. destruct (IH (snd (fire_timer w))) as (-> & -> & -> & ->).
    by destruct (fire_timer_frame w) as (_ & -> & -> & -> & ->).
Qed.

End MoreSweeper.

Section SweepParameters.
Context `{Host}.

(** With one sweep armed, the sweeps of [k] turns of the queue are [k]
    times the same call, with the options as they are. *)
Lemma run_single_sweeper (this : Logger) (k : nat) (w : World) (d : Z) :
  timers w = [{| delay := d; task := Sweep this |}] ->
  sweeps (run_timers k w)
  = (sweeps w
     ++ repeat (EFindRemove (prop_of w (opts this) "path")
                  {| factor := prop_of w (opts this) "deleteAge"; times := DAY_SECONDS |}
                  [prop_of w (opts this) "logExt"]) k)%list.
Proof.
  revert w d. induction k as [|k IH]; intros w d Ht; [by rewrite app_nil_r|].
  cbn [run_timers repeat]. rewrite fire_timer_eval. cbn [snd]. rewrite Ht. cbn [task app].
  rewrite (IH _ DAY_SECONDS) by reflexivity.
  change (sweeps (with_timers ?ts ?w0)) with (sweeps w0).
  change (prop_of (with_timers ?ts (add_event ?e ?w0))) with (prop_of w0).
  rewrite sweeps_add_event. cbn [is_sweep]. by rewrite <- app_assoc.
Qed.

(** X20. What the sweeper of a logger of src/unnamed/part_000 asks for, at
    the construction and at every later turn: the files of the resolved
    directory with the extension [logExt] that are older than
    [deleteAge * 86400] seconds, and nothing else. *)
Theorem X20_every_sweep_has_the_configured_age_and_extension
    (ctx : JsValue) (l : loc) (src : gmap string JsValue) (w : World)
    (n : Z) (r : string) (k : nat) :
  ctx <> JUndefined -> heap w !! l = Some src -> timers w = [] ->
  truthy (cfg_of src "rotation") = true ->
  cfg_of src "deleteAge" = JNum n -> 0 < n ->
  path_resolve (cfg_of src "path") ctx = Returned r ->
  sweeps (run_timers k (snd (Iog.constructor ctx (Some l) w)))
  = (sweeps w
     ++ repeat (EFindRemove (JStr r) {| factor := JNum n; times := 86400 |}
                  [cfg_of src "logExt"]) (S k))%list.
Proof.
  intros Hctx Hl Ht Hrot Hage Hn Hres.
  assert (Htruthy : truthy (cfg_of src "deleteAge") = true).
  { rewrite Hage. cbn [truthy]. apply negb_true_iff, Z.eqb_neq. lia. }
  set (this := {| contextName := ctx; opts := fresh (dom (heap w)); _paused := false |}).
  set (w' := snd (Iog.constructor ctx (Some l) w)).
  assert (Htimers : timers w' = [{| delay := DAY_SECONDS; task := Sweep this |}]).
  { subst w'. rewrite (Iog_constructor_eval ctx l src w Hctx Hl). cbv zeta.
    rewrite Hrot, Hres, Htruthy, created_timers. cbn [timers with_timers]. by rewrite Ht. }
  assert (Hprop : forall key, prop_of w' (opts this) key
                  = default JUndefined (<["path" := JStr r]> (src ∪ Iog.defaults) !! key)).
  { intros key. unfold prop_of. subst w'.
    rewrite (Iog_constructor_heap ctx l src w Hctx Hl), Hrot, Hres. cbn [opts this].
    by rewrite lookup_insert_eq. }
  assert (Hsweeps : sweeps w'
            = (sweeps w ++ [EFindRemove (JStr r) {| factor := JNum n; times := 86400 |}
                              [cfg_of src "logExt"]])%list).
  { subst w'. rewrite (Iog_constructor_eval ctx l src w Hctx Hl). cbv zeta.
    rewrite Hrot, Hres, Htruthy, Hage, created_sweeps.
    change (sweeps (with_timers ?ts ?w0)) with (sweeps w0).
    by rewrite sweeps_add_event. }
  rewrite (run_single_sweeper this k w' DAY_SECONDS Htimers), Hsweeps, !Hprop.
  rewrite lookup_insert_eq, !lookup_insert_ne by discriminate.
  fold (cfg_of src "deleteAge"). fold (cfg_of src "logExt"). rewrite Hage.
  cbn [default from_option id]. rewrite <- app_assoc. reflexivity.
Qed.

End SweepParameters.

(** X17. A chain of [pause()] and [resume()] calls keeps the context name
    and the options of the logger, and leaves it paused exactly when the
    last call of the chain is [pause()] (as it was, when the chain is
    empty). *)
Theorem X17_last_flag_call_decides (this : Logger) (calls : list FlagCall) :
  contextName (chain this calls) = contextName this
  /\ opts (chain this calls) = opts this
  /\ _paused (chain this calls)
     = match last calls with
       | None => _paused this
       | Some CallPause => true
       | Some CallResume => false
       end.
Proof.
  induction calls as [|c calls IH] using rev_ind; [done|].
  unfold chain in *. rewrite fold_left_app. cbn [fold_left].
  destruct IH as (Hc & Ho & _). rewrite last_snoc.
  destruct c; cbn [call_flag pause resume contextName opts _paused]; done.
Qed.

Section Omitted.
Context `{Host}.

Lemma cfg_of_empty (k : string) : cfg_of ∅ k = default JUndefined (Iog.defaults !! k).
Proof. by rewrite cfg_of_merged, lookup_empty. Qed.

(** X18. [new Iog(contextName)] without options, in src/unnamed/part_000:
    the configuration is the defaults, the directory [logs] is created,
    nothing is swept, and a write goes to the console and to
    [logs/{contextName}.log] as a standard block closed by the default
    separator. *)
Theorem X18_iog_without_options_uses_the_defaults
    (ctx : JsValue) (w : World) (msg type : JsValue) :
  ctx <> JUndefined ->
  (forall m t, console_method m t = Returned tt) ->
  mkdirp_sync (JStr "logs") = Returned tt ->
  let res := Iog.constructor ctx None w in
  let type' := default_param (JStr "log") type in
  let body := block ctx (dateFormat (clock w (reads w)) "yyyy-mm-dd HH:MM:ss:l") type'
                (serialize_msg (default_param (JStr "") msg)) (JStr SEPARATOR) in
  exists this,
    fst res = Returned this
    /\ contextName this = ctx
    /\ heap (snd res) !! opts this = Some Iog.defaults
    /\ timers (snd res) = timers w
    /\ events (snd res) = (events w ++ [EMkdirp (JStr "logs")])%list
    /\ events (snd (Iog.write this msg type JUndefined (snd res)))
       = (events (snd res)
          ++ [EConsole (console_method_of type') body;
              EAppendFile ("logs/" +:+ ToString ctx +:+ ".log") body])%list.
Proof.
  intros Hctx Hcons Hmk res type' body. subst res.
  rewrite Iog_constructor_omitted.
  set (w0 := with_heap (<[fresh (dom (heap w)) := ∅]> (heap w)) w).
  assert (Hl : heap w0 !! fresh (dom (heap w)) = Some ∅)
    by (subst w0; cbn [heap with_heap]; apply lookup_insert_eq).
  rewrite (Iog_constructor_eval ctx _ ∅ w0 Hctx Hl). cbv zeta.
  rewrite !cfg_of_empty.
  change (default JUndefined (Iog.defaults !! "rotation")) with (JBool false).
  change (default JUndefined (Iog.defaults !! "path")) with (JStr "logs").
  cbn [truthy]. unfold created. cbn [truthy String.eqb Ascii.eqb Bool.eqb negb].
  rewrite Hmk. cbn [fst snd].
  set (t := fresh (dom (heap w0))).
  exists {| contextName := ctx; opts := t; _paused := false |}.
  rewrite (left_id_L ∅ (∪)).
  set (w1 := add_event (EMkdirp (JStr "logs")) (with_heap (<[t := Iog.defaults]> (heap w0)) w0)).
  assert (Hprop : forall k, prop_of w1 t k = default JUndefined (Iog.defaults !! k)).
  { intros k. subst w1. change (prop_of (add_event ?e ?w2)) with (prop_of w2).
    by rewrite prop_of_insert. }
  split; [reflexivity|]. split; [reflexivity|].
  split; [subst w1; cbn [heap add_event with_heap opts]; apply lookup_insert_eq|].
  split; [reflexivity|]. split; [reflexivity|].
  rewrite (Iog_write_returns {| contextName := ctx; opts := t; _paused := false |}
             msg type JUndefined w1 eq_refl Hcons). cbv zeta.
  cbn [snd]. rewrite requested_events, shown_events, file_of_shown. unfold text_of.
  cbn [opts contextName]. rewrite !Hprop.
  change (default JUndefined (Iog.defaults !! "rotation")) with (JBool false).
  change (default JUndefined (Iog.defaults !! "path")) with (JStr "logs").
  change (default JUndefined (Iog.defaults !! "slim")) with (JBool false).
  change (default JUndefined (Iog.defaults !! "console")) with (JBool true).
  change (default JUndefined (Iog.defaults !! "logExt")) with (JStr ".log").
  change (default JUndefined (Iog.defaults !! "separator")) with (JStr SEPARATOR).
  cbn [truthy andb ToString default_param].
  by rewrite <- app_assoc.
Qed.

End Omitted.

(** ** Closed instances, on the sample host *)

Section Examples.
#[local] Existing Instance sample_host.

Lemma sample_console_returns (m t : string) : console_method m t = Returned tt.
Proof. reflexivity. Qed.

Lemma sample_heap (o : gmap string JsValue) : heap (world_of [(0%nat, o)]) !! 0%nat = Some o.
Proof. apply lookup_insert_eq. Qed.

(** The instances and worlds above are what the constructors give. *)
Example svc_constructed :
  fst (Iog.constructor (JStr "svc") (Some 0%nat) (world_of [(0%nat, ∅)])) = Returned svc
  /\ fst (IogJs.constructor (JStr "svc") (Some 0%nat) (world_of [(0%nat, ∅)]))
     = Returned svc_js.
Proof. by vm_compute. Qed.

(** C2 (src/unnamed/part_000). [new Iog('svc', {rotation: true, deleteAge: 1})]
    sweeps once and arms the next sweep with [setTimeout(..., 86400)]: a
    delay of 86400 milliseconds, not the 86400 seconds of a day; and so does
    every sweep after it. *)
Theorem C2_sweep_rearmed_after_86400_milliseconds :
  let w' := svc_world [("rotation", JBool true); ("deleteAge", JNum 1)] in
  sweeps w' = [EFindRemove (JStr "logs/svc")
                 {| factor := JNum 1; times := 86400 |} [JStr ".log"]]
  /\ timers w' = [{| delay := 86400; task := Sweep svc |}]
  /\ timers (run_timers 1 w') = [{| delay := 86400; task := Sweep svc |}]
  /\ length (sweeps (run_timers 1 w')) = 2%nat
  /\ milliseconds_of_seconds 86400 = 86400000
  /\ 86400 <> milliseconds_of_seconds 86400.
Proof. cbv zeta. repeat split; by vm_compute. Qed.

(** C3, counterexample. [new Iog('')]: the empty context name is accepted
    by both files, and the logger is returned. *)
Lemma C3_empty_context_name_is_accepted :
  fst (Iog.constructor (JStr "") None (world_of []))
  = Returned {| contextName := JStr ""; opts := 1%nat; _paused := false |}
  /\ fst (IogJs.constructor (JStr "") None (world_of []))
     = Returned {| contextName := JStr ""; opts := 0%nat; _paused := false |}.
Proof. by vm_compute. Qed.

(** C3 at [new Iog('')], whose omitted options are a fresh object. *)
Lemma C3_witness :
  (forall l : loc, @None loc = Some l -> is_Some (heap (world_of []) !! l))
  /\ built_or_host_threw (JStr "")
       (fst (Iog.constructor (JStr "") None (world_of []))).
Proof.
  assert (Hwf : forall l : loc, @None loc = Some l -> is_Some (heap (world_of []) !! l))
    by (intros l E; discriminate E).
  split; [exact Hwf|].
  destruct (C3_context_name_required_when_undefined (JStr "") None (world_of []) Hwf)
    as [[E _]|(_ & _ & Hb)]; [discriminate E | exact Hb].
Defined.

(** C4, counterexample. [new Iog('svc', {deleteAge: 5})]: the retention is
    positive and rotation is off; the logger is built, no sweep is done and
    no timer is armed, then or later. *)
Lemma C4_no_sweep_without_rotation :
  let r := Iog.constructor (JStr "svc") (Some 0%nat)
             (world_of [(0%nat, list_to_map [("deleteAge", JNum 5)])]) in
  fst r = Returned svc
  /\ prop_of (snd r) 1%nat "deleteAge" = JNum 5
  /\ sweeps (snd r) = []
  /\ timers (snd r) = []
  /\ sweeps (run_timers 3 (snd r)) = [].
Proof. by vm_compute. Qed.

(** C4 at [new Iog('svc', {rotation: true, deleteAge: 5, console: false})],
    where the sweep is armed, and at [new Iog('svc', {deleteAge: 5})], where
    nothing is swept and no timer is armed. *)
Lemma C4_witness :
  ((JStr "svc" <> JUndefined
    /\ truthy (cfg_of (list_to_map [("rotation", JBool true); ("deleteAge", JNum 5);
                                    ("console", JBool false)]) "rotation") = true
    /\ 0 < 5)
   /\ forall k,
        In (Sweep svc)
          (map task
             (timers
                (run_timers k
                   (svc_world [("rotation", JBool true); ("deleteAge", JNum 5);
                               ("console", JBool false)])))))
  /\ (truthy (cfg_of (list_to_map [("deleteAge", JNum 5)]) "rotation") = false
      /\ sweeps (svc_world [("deleteAge", JNum 5)])
         = sweeps (world_of [(0%nat, list_to_map [("deleteAge", JNum 5)])])
      /\ timers (svc_world [("deleteAge", JNum 5)])
         = timers (world_of [(0%nat, list_to_map [("deleteAge", JNum 5)])])).
Proof.
  assert (Hctx : JStr "svc" <> JUndefined) by discriminate.
  assert (Hpos : 0 < 5) by lia.
  assert (Hon : truthy (cfg_of (list_to_map [("rotation", JBool true); ("deleteAge", JNum 5);
                                             ("console", JBool false)]) "rotation") = true)
    by reflexivity.
  assert (Hage : cfg_of (list_to_map [("rotation", JBool true); ("deleteAge", JNum 5);
                                      ("console", JBool false)]) "deleteAge" = JNum 5)
    by reflexivity.
  assert (Hres : path_resolve
                   (cfg_of (list_to_map [("rotation", JBool true); ("deleteAge", JNum 5);
                                         ("console", JBool false)]) "path") (JStr "svc")
                 = Returned "logs/svc") by reflexivity.
  assert (Hoff : truthy (cfg_of (list_to_map [("deleteAge", JNum 5)]) "rotation") = false)
    by reflexivity.
  split.
  - split; [repeat split; assumption|].
    destruct (C4_sweeper_started_under_rotation_only (JStr "svc") 0%nat
                (list_to_map [("rotation", JBool true); ("deleteAge", JNum 5);
                              ("console", JBool false)])
                (world_of [(0%nat, list_to_map [("rotation", JBool true);
                                                ("deleteAge", JNum 5);
                                                ("console", JBool false)])])
                Hctx (sample_heap _))
      as [Hstarted _].
    destruct (Hstarted 5 "logs/svc" Hon Hage Hpos Hres) as (_ & _ & Harmed).
    exact Harmed.
  - split; [exact Hoff|].
    destruct (C4_sweeper_started_under_rotation_only (JStr "svc") 0%nat
                (list_to_map [("deleteAge", JNum 5)])
                (world_of [(0%nat, list_to_map [("deleteAge", JNum 5)])])
                Hctx (sample_heap _))
      as [_ Hnone].
    exact (Hnone Hoff).
Defined.

(** C5, counterexample (src/src/iog.js). The caller configures
    [onLog: (text, type) => {}], writes ['hello'], and the append ends
    without error: the callback returns and [onLog] is not called. *)
Lemma C5_iogjs_never_calls_onLog :
  let w0 := svc_js_world [("onLog", JFun "(text, type) => {}")] in
  let w1 := snd (IogJs.write svc_js (JStr "hello") JUndefined JUndefined w0) in
  let r := IogJs.complete JNull w1 in
  typeof (prop_of w1 0%nat "onLog") = "function"
  /\ (exists file body, last (events w1) = Some (EAppendFile file body))
  /\ length (pending w1) = 1%nat
  /\ fst r = Returned tt
  /\ pending (snd r) = []
  /\ events (snd r) = events w1
  /\ (exists file body,
        events (snd r)
        = [EMkdirp (JStr "log"); EConsole "log" body; EAppendFile file body]).
Proof.
  cbv zeta. split; [by vm_compute|]. split; [do 2 eexists; by vm_compute|].
  split; [by vm_compute|]. split; [by vm_compute|]. split; [by vm_compute|].
  split; [by vm_compute|]. do 2 eexists. by vm_compute.
Qed.

(** C5 at [write('hello')] with an [onLog] function configured. *)
Lemma C5_witness :
  _paused svc = false
  /\ exists file body,
       last (events (snd (Iog.write svc (JStr "hello") JUndefined JUndefined
                            (svc_world [("onLog", JFun "(text, type) => {}")]))))
       = Some (EAppendFile file body)
       /\ Iog.on_append {| c_this := svc; c_body := body; c_type := JStr "log" |} JNull
            (svc_world [("onLog", JFun "(text, type) => {}")])
          = (Returned tt,
             add_event (ECall (JFun "(text, type) => {}") [JStr body; JStr "log"])
               (svc_world [("onLog", JFun "(text, type) => {}")])).
Proof.
  split; [reflexivity|].
  destruct (C5_append_completion svc (JStr "hello") JUndefined JUndefined JNull
              (svc_world [("onLog", JFun "(text, type) => {}")])
              (svc_world [("onLog", JFun "(text, type) => {}")])
              eq_refl sample_console_returns)
    as [(file & body & _ & Hlast & _ & Hdone) _].
  exists file, body. split; [exact Hlast | exact Hdone].
Defined.

(** C6, counterexample. In slim mode [write({a: 1})] appends the record
    whose BODY is the object [{a: 1}] itself; that text is not the one of a
    record whose BODY is the serialized form of the message. *)
Lemma C6_body_is_not_the_serialized_text :
  let w0 := svc_world [("slim", JBool true); ("console", JBool false)] in
  let msg := JObj [("a", JNum 1)] in
  let record (body : JsValue) :=
    JObj [("CONTEXT", JStr "svc"); ("DATE", JStr "1000 as yyyy-mm-dd HH:MM:ss:l");
          ("TYPE", JStr "log"); ("BODY", body)] in
  last (events (snd (Iog.write svc msg JUndefined JUndefined w0)))
  = Some (EAppendFile "logs/svc.log" (to_json (record msg) +:+ nl))
  /\ to_json (record msg)
     <> to_json (record (JStr (stringify msg (Some {| replace := JNull; space := JNum 2 |}))))
  /\ to_json (record msg) <> to_json (record (JStr (stringify msg None))).
Proof. cbv zeta. repeat split; by vm_compute. Qed.

Lemma sample_writes_objects_by_member : writes_objects_by_member.
Proof. intros fields _. reflexivity. Qed.

(** C6 at [write({a: 1})] in slim mode. *)
Lemma C6_witness :
  (_paused svc = false
   /\ truthy (prop_of (svc_world [("slim", JBool true)]) (opts svc) "slim") = true
   /\ typeof (JObj [("a", JNum 1)]) = "object"
   /\ isError (JObj [("a", JNum 1)]) = false)
  /\ (exists file,
        last (events (snd (Iog.write svc (JObj [("a", JNum 1)]) JUndefined JUndefined
                             (svc_world [("slim", JBool true)]))))
        = Some (EAppendFile file
                  (stringify
                     (JObj [("CONTEXT", JStr "svc");
                            ("DATE", JStr "1000 as yyyy-mm-dd HH:MM:ss:l");
                            ("TYPE", JStr "log");
                            ("BODY", JObj [("a", JNum 1)])]) None +:+ nl)))
  /\ stringify
       (JObj [("CONTEXT", JStr "svc");
              ("DATE", JStr "1000 as yyyy-mm-dd HH:MM:ss:l");
              ("TYPE", JStr "log");
              ("BODY", JObj [("a", JNum 1)])]) None +:+ nl
     = "{" +:+ join "," [member ("CONTEXT", JStr "svc");
                         member ("DATE", JStr "1000 as yyyy-mm-dd HH:MM:ss:l");
                         member ("TYPE", JStr "log");
                         member ("BODY", JObj [("a", JNum 1)])] +:+ "}" +:+ nl.
Proof.
  split; [repeat split|].
  destruct (C6_slim_record_holds_the_message_itself svc (JObj [("a", JNum 1)])
              JUndefined JUndefined (svc_world [("slim", JBool true)])
              eq_refl sample_console_returns eq_refl eq_refl eq_refl)
    as (_ & Hlast & _ & _ & _ & Htext).
  split; [exact Hlast|].
  exact (Htext sample_writes_objects_by_member eq_refl eq_refl).
Defined.

(** C7, counterexample. In the standard block [write(new Error('boom'))]
    shows the error as ["Error: boom"], its string conversion, and not as
    its message ["boom"] alone; both files. *)
Lemma C7_error_is_shown_with_its_name :
  let text (shown_msg : string) :=
    "CONTEXT: svc" +:+ nl +:+ "DATE: 1000 as yyyy-mm-dd HH:MM:ss:l" +:+ nl +:+
    "TYPE: log" +:+ nl +:+ "BODY:" +:+ nl +:+ nl +:+ shown_msg +:+ SEPARATOR in
  last (events (snd (Iog.write svc (JErr "Error" "boom") JUndefined JUndefined
                       (svc_world []))))
  = Some (EAppendFile "logs/svc.log" (text "Error: boom"))
  /\ last (events (snd (IogJs.write svc_js (JErr "Error" "boom") JUndefined JUndefined
                          (svc_js_world []))))
     = Some (EAppendFile "log/svc.log" (text "Error: boom"))
  /\ text "Error: boom" <> text "boom".
Proof. cbv zeta. repeat split; by vm_compute. Qed.

(** C7 at [write(new TypeError('boom'))] in the standard block. *)
Lemma C7_witness :
  (_paused svc = false
   /\ truthy (prop_of (svc_world []) (opts svc) "slim") = false
   /\ typeof (JErr "TypeError" "boom") = "object")
  /\ exists file,
       last (events (snd (Iog.write svc (JErr "TypeError" "boom") JUndefined JUndefined
                            (svc_world []))))
       = Some (EAppendFile file
                 ("CONTEXT: svc" +:+ nl +:+ "DATE: 1000 as yyyy-mm-dd HH:MM:ss:l" +:+ nl
                  +:+ "TYPE: log" +:+ nl +:+ "BODY:" +:+ nl +:+ nl
                  +:+ "TypeError: boom" +:+ SEPARATOR)).
Proof.
  split; [repeat split|].
  destruct (C7_standard_body_of_structured_message svc (JErr "TypeError" "boom")
              JUndefined JUndefined (svc_world [])
              eq_refl sample_console_returns eq_refl eq_refl)
    as [[_ Hlast] _].
  exact Hlast.
Defined.

(** C9 at [write('hello')] with rotation: the file is named after the
    clock reading that follows the one of the date of the record. *)
Lemma C9_witness :
  _paused svc = false
  /\ exists body,
       last (events (snd (Iog.write svc (JStr "hello") JUndefined JUndefined
                            (svc_world [("rotation", JBool true)]))))
       = Some (EAppendFile "logs/svc/1001 as yyyy-mm-dd.log" body).
Proof.
  split; [reflexivity|].
  destruct (C9_file_path_resolved_on_each_write svc (JStr "hello") JUndefined JUndefined
              (svc_world [("rotation", JBool true)]) eq_refl sample_console_returns)
    as (_ & Hw & _).
  exact Hw.
Defined.

(** C10 at [new Iog('svc', {path: '/var/log'})]. *)
Lemma C10_witness :
  (JStr "svc" <> JUndefined
   /\ heap (world_of [(0%nat, {[ "path" := JStr "/var/log" ]})]) !! 0%nat
      = Some {[ "path" := JStr "/var/log" ]})
  /\ heap (snd (IogJs.constructor (JStr "svc") (Some 0%nat)
                  (world_of [(0%nat, {[ "path" := JStr "/var/log" ]})]))) !! 0%nat
     = Some (IogJs.defaults ∪ {[ "path" := JStr "/var/log" ]}).
Proof.
  assert (Hctx : JStr "svc" <> JUndefined) by discriminate.
  split; [split; [exact Hctx | apply sample_heap]|].
  destruct (C10_iogjs_constructor_mutates_supplied_object (JStr "svc") 0%nat
              {[ "path" := JStr "/var/log" ]}
              (world_of [(0%nat, {[ "path" := JStr "/var/log" ]})])
              Hctx (sample_heap _))
    as (Hheap & _).
  exact Hheap.
Defined.

(** *** Instances of the further properties *)

(** X1 at [write('hello', 'audit')]: the console has no [audit], so
    [console.log] is called. *)
Lemma X1_witness :
  (_paused svc = false
   /\ truthy (prop_of (svc_world []) (opts svc) "console") = true
   /\ truthy (default_param (JBool true) JUndefined) = true)
  /\ exists file body,
       events (snd (Iog.write svc (JStr "hello") (JStr "audit") JUndefined (svc_world [])))
       = (events (svc_world []) ++ [EConsole "log" body; EAppendFile file body])%list.
Proof.
  split; [repeat split|].
  destruct (X1_console_mirrors_the_file svc (JStr "hello") (JStr "audit") JUndefined
              (svc_world []) eq_refl sample_console_returns eq_refl eq_refl)
    as [Hw _].
  exact Hw.
Defined.

Lemma broken_console_throws (m t : string) :
  console_method (Host := broken_console_host) m t = Threw not_a_function.
Proof. reflexivity. Qed.

(** X2 at [write('hello')] on a host whose console methods throw. *)
Lemma X2_witness :
  (_paused svc = false
   /\ truthy (prop_of (svc_world []) (opts svc) "console") = true)
  /\ fst (Iog.write (H := broken_console_host) svc (JStr "hello") JUndefined JUndefined
            (svc_world []))
     = Threw not_a_function
  /\ pending (snd (Iog.write (H := broken_console_host) svc (JStr "hello") JUndefined
                     JUndefined (svc_world [])))
     = pending (svc_world []).
Proof.
  split; [repeat split|].
  destruct (X2_console_failure_aborts_the_write (H := broken_console_host) svc
              (JStr "hello") JUndefined JUndefined not_a_function (svc_world [])
              eq_refl broken_console_throws eq_refl eq_refl)
    as [(Hthrew & _ & Hpending) _].
  split; [exact Hthrew | exact Hpending].
Defined.

(** X3 at [write('hello', 'log', false)]. *)
Lemma X3_witness :
  (_paused svc = false
   /\ truthy (prop_of (svc_world []) (opts svc) "console")
      && truthy (default_param (JBool true) (JBool false)) = false)
  /\ exists file body,
       events (snd (Iog.write svc (JStr "hello") (JStr "log") (JBool false) (svc_world [])))
       = (events (svc_world []) ++ [EAppendFile file body])%list.
Proof.
  split; [repeat split|].
  destruct (X3_silent_write_still_appends svc (JStr "hello") (JStr "log") (JBool false)
              (svc_world []) eq_refl eq_refl)
    as [[_ Hw] _].
  exact Hw.
Defined.

(** X4 at [write('hello')] under rotation: two clock readings. *)
Lemma X4_witness :
  _paused svc = false
  /\ reads (snd (Iog.write svc (JStr "hello") JUndefined JUndefined
                   (svc_world [("rotation", JBool true)])))
     = (reads (svc_world [("rotation", JBool true)]) + 2)%nat.
Proof.
  split; [reflexivity|].
  destruct (X4_write_leaves_options_and_timers svc (JStr "hello") JUndefined JUndefined
              (svc_world [("rotation", JBool true)]) eq_refl sample_console_returns)
    as [(_ & _ & Hreads & _) _].
  exact Hreads.
Defined.

(** X5 at [write('hello', 'info')]. *)
Lemma X5_witness :
  (_paused svc = false
   /\ truthy (prop_of (svc_world []) (opts svc) "slim") = false
   /\ typeof (default_param (JStr "") (JStr "hello")) <> "object")
  /\ exists file,
       last (events (snd (Iog.write svc (JStr "hello") (JStr "info") JUndefined
                            (svc_world []))))
       = Some (EAppendFile file
                 ("CONTEXT: svc" +:+ nl +:+ "DATE: 1000 as yyyy-mm-dd HH:MM:ss:l" +:+ nl
                  +:+ "TYPE: info" +:+ nl +:+ "BODY:" +:+ nl +:+ nl
                  +:+ "hello" +:+ SEPARATOR)).
Proof.
  assert (Hplain : typeof (default_param (JStr "") (JStr "hello")) <> "object")
    by discriminate.
  split; [repeat split; exact Hplain|].
  destruct (X5_plain_message_is_written_verbatim svc (JStr "hello") (JStr "info")
              JUndefined (svc_world []) eq_refl sample_console_returns eq_refl Hplain)
    as [Hw _].
  exact Hw.
Defined.

(** X6 at [write(new Error('boom'))] in slim mode. *)
Lemma X6_witness :
  (_paused svc = false
   /\ truthy (prop_of (svc_world [("slim", JBool true)]) (opts svc) "slim") = true)
  /\ exists file,
       last (events (snd (Iog.write svc (JErr "Error" "boom") JUndefined JUndefined
                            (svc_world [("slim", JBool true)]))))
       = Some (EAppendFile file
                 (stringify
                    (JObj [("CONTEXT", JStr "svc");
                           ("DATE", JStr "1000 as yyyy-mm-dd HH:MM:ss:l");
                           ("TYPE", JStr "log");
                           ("BODY", JErr "Error" "boom")]) None +:+ nl)).
Proof.
  split; [repeat split|].
  exact (X6_slim_mode_converts_no_message svc (JErr "Error" "boom") JUndefined JUndefined
           (svc_world [("slim", JBool true)]) eq_refl sample_console_returns eq_refl).
Defined.

(** X7 at [trace('step')] in src/unnamed/part_000 and at [error('boom')] in
    src/src/iog.js: the sample console has a [trace] and an [error]. *)
Lemma X7_witness :
  (_paused svc = false
   /\ truthy (prop_of (svc_world []) (opts svc) "console") = true
   /\ exists file,
        events (snd (Iog.trace svc (JStr "step") (svc_world [])))
        = (events (svc_world [])
           ++ [EConsole "trace" (text_of svc (JStr "step") (JStr "trace") (svc_world []));
               EAppendFile file
                 (text_of svc (JStr "step") (JStr "trace") (svc_world []))])%list)
  /\ (_paused svc_js = false
      /\ truthy (prop_of (svc_js_world []) (opts svc_js) "console") = true
      /\ exists file,
           events (snd (IogJs.error svc_js (JStr "boom") (svc_js_world [])))
           = (events (svc_js_world [])
              ++ [EConsole "error"
                    (block (JStr "svc") (dateFormat 1000 "yyyy-mm-dd HH:MM:ss:l")
                       (JStr "error") (JStr "boom") (JStr SEPARATOR));
                  EAppendFile file
                    (block (JStr "svc") (dateFormat 1000 "yyyy-mm-dd HH:MM:ss:l")
                       (JStr "error") (JStr "boom") (JStr SEPARATOR))])%list).
Proof.
  split.
  - split; [reflexivity|]. split; [reflexivity|].
    destruct (X7_wrappers_log_under_their_own_name svc (JStr "step") (svc_world [])
                eq_refl sample_console_returns eq_refl)
      as [(_ & _ & _ & _ & Htrace) _].
    exact Htrace.
  - split; [reflexivity|]. split; [reflexivity|].
    destruct (X7_wrappers_log_under_their_own_name svc_js (JStr "boom") (svc_js_world [])
                eq_refl sample_console_returns eq_refl)
      as [_ (_ & Herror & _)].
    exact Herror.
Defined.

(** X8 at three writes of the types [info], the default and [error]. *)
Lemma X8_witness :
  _paused svc = false
  /\ map c_type
       (pending (snd (write_all Iog.write svc
                        [(JStr "a", JStr "info", JUndefined);
                         (JStr "b", JUndefined, JBool false);
                         (JStr "c", JStr "error", JUndefined)] (svc_world []))))
     = (map c_type (pending (svc_world [])) ++ [JStr "info"; JStr "log"; JStr "error"])%list.
Proof.
  split; [reflexivity|].
  destruct (X8_each_write_of_a_sequence_appends_once svc
              [(JStr "a", JStr "info", JUndefined);
               (JStr "b", JUndefined, JBool false);
               (JStr "c", JStr "error", JUndefined)] (svc_world [])
              eq_refl sample_console_returns)
    as [(_ & _ & Hpending & _) _].
  exact Hpending.
Defined.

(** X9 at a world and the same world one clock reading later, under
    rotation. *)
Lemma X9_witness :
  (forall k, prop_of (svc_world [("rotation", JBool true)]) (opts svc) k
             = prop_of (tick (svc_world [("rotation", JBool true)])) (opts svc) k)
  /\ (fst (_filePath svc (svc_world [("rotation", JBool true)]))
      = fst (_filePath svc (tick (svc_world [("rotation", JBool true)])))
      <-> dateFormat 1000 "yyyy-mm-dd" = dateFormat 1001 "yyyy-mm-dd").
Proof.
  assert (Hsame : forall k,
            prop_of (svc_world [("rotation", JBool true)]) (opts svc) k
            = prop_of (tick (svc_world [("rotation", JBool true)])) (opts svc) k)
    by reflexivity.
  split; [exact Hsame|].
  exact (X9_rotation_gives_one_file_per_date svc (svc_world [("rotation", JBool true)])
           (tick (svc_world [("rotation", JBool true)])) Hsame).
Defined.

(** X10 at [new Iog('svc', {path: '/var/log'})]: the caller's object is as
    it was. *)
Lemma X10_witness :
  (JStr "svc" <> JUndefined
   /\ heap (world_of [(0%nat, {[ "path" := JStr "/var/log" ]})]) !! 0%nat
      = Some {[ "path" := JStr "/var/log" ]})
  /\ heap (snd (Iog.constructor (JStr "svc") (Some 0%nat)
                  (world_of [(0%nat, {[ "path" := JStr "/var/log" ]})]))) !! 0%nat
     = Some {[ "path" := JStr "/var/log" ]}.
Proof.
  assert (Hctx : JStr "svc" <> JUndefined) by discriminate.
  split; [split; [exact Hctx | apply sample_heap]|].
  destruct (X10_iog_constructor_leaves_supplied_object (JStr "svc") 0%nat
              {[ "path" := JStr "/var/log" ]}
              (world_of [(0%nat, {[ "path" := JStr "/var/log" ]})])
              Hctx (sample_heap _))
    as (Hsame & _).
  exact Hsame.
Defined.

(** X11 at [new Iog('svc', {path: '/var/log', rotation: true})]. *)
Lemma X11_witness :
  (JStr "svc" <> JUndefined
   /\ heap (world_of [(0%nat, list_to_map [("path", JStr "/var/log");
                                           ("rotation", JBool true)])]) !! 0%nat
      = Some (list_to_map [("path", JStr "/var/log"); ("rotation", JBool true)]))
  /\ prop_of (svc_world [("path", JStr "/var/log"); ("rotation", JBool true)]) 1%nat "path"
     = JStr "/var/log/svc".
Proof.
  assert (Hctx : JStr "svc" <> JUndefined) by discriminate.
  split; [split; [exact Hctx | apply sample_heap]|].
  destruct (X11_iog_configuration_is_supplied_over_defaults (JStr "svc") 0%nat
              (list_to_map [("path", JStr "/var/log"); ("rotation", JBool true)])
              (world_of [(0%nat, list_to_map [("path", JStr "/var/log");
                                              ("rotation", JBool true)])])
              Hctx (sample_heap _))
    as (_ & Hpath).
  exact Hpath.
Defined.

(** X12 at [new Iog(5, {rotation: true})]: [path.resolve('logs', 5)] throws. *)
Lemma X12_witness :
  (JNum 5 <> JUndefined
   /\ truthy (cfg_of (list_to_map [("rotation", JBool true)]) "rotation") = true
   /\ path_resolve (cfg_of (list_to_map [("rotation", JBool true)]) "path") (JNum 5)
      = Threw (JErr "TypeError" "The path argument must be of type string"))
  /\ fst (Iog.constructor (JNum 5) (Some 0%nat)
            (world_of [(0%nat, list_to_map [("rotation", JBool true)])]))
     = Threw (JErr "TypeError" "The path argument must be of type string")
  /\ events (snd (Iog.constructor (JNum 5) (Some 0%nat)
                    (world_of [(0%nat, list_to_map [("rotation", JBool true)])])))
     = events (world_of [(0%nat, list_to_map [("rotation", JBool true)])]).
Proof.
  assert (Hctx : JNum 5 <> JUndefined) by discriminate.
  assert (Hrot : truthy (cfg_of (list_to_map [("rotation", JBool true)]) "rotation") = true)
    by reflexivity.
  assert (Hres : path_resolve (cfg_of (list_to_map [("rotation", JBool true)]) "path")
                   (JNum 5)
                 = Threw (JErr "TypeError" "The path argument must be of type string"))
    by reflexivity.
  split; [repeat split; assumption|].
  destruct (X12_iog_constructor_fails_with_path_resolve (JNum 5)
              (JErr "TypeError" "The path argument must be of type string") 0%nat
              (list_to_map [("rotation", JBool true)])
              (world_of [(0%nat, list_to_map [("rotation", JBool true)])])
              Hctx (sample_heap _) Hrot Hres)
    as (Hthrew & Hevents & _).
  split; [exact Hthrew | exact Hevents].
Defined.

Lemma sample_no_rotation :
  truthy (cfg_of ∅ "rotation") = true ->
  path_resolve (Host := read_only_host) (cfg_of ∅ "path") (JStr "svc") = Returned "".
Proof. intros E. discriminate E. Qed.

(** X13 at [new Iog('svc', {})] on a host that cannot create directories. *)
Lemma X13_witness :
  (JStr "svc" <> JUndefined
   /\ heap (world_of [(0%nat, ∅)]) !! 0%nat = Some ∅)
  /\ fst (Iog.constructor (H := read_only_host) (JStr "svc") (Some 0%nat)
            (world_of [(0%nat, ∅)]))
     = Threw no_permission.
Proof.
  assert (Hctx : JStr "svc" <> JUndefined) by discriminate.
  split; [split; [exact Hctx | apply sample_heap]|].
  exact (proj2 (X13_iog_constructor_creates_the_directory (H := read_only_host)
                  (JStr "svc") 0%nat ∅ (world_of [(0%nat, ∅)]) ""
                  Hctx (sample_heap _) sample_no_rotation)).
Defined.

(** X14 at [new Iog('svc', {rotation: true, deleteAge: 1})]. *)
Lemma X14_witness :
  heap (world_of [(0%nat, list_to_map [("rotation", JBool true); ("deleteAge", JNum 1)])])
    !! 0%nat
  = Some (list_to_map [("rotation", JBool true); ("deleteAge", JNum 1)])
  /\ outputs (svc_world [("rotation", JBool true); ("deleteAge", JNum 1)])
     = outputs (world_of [(0%nat, list_to_map [("rotation", JBool true);
                                               ("deleteAge", JNum 1)])]).
Proof.
  split; [apply sample_heap|].
  destruct (X14_constructors_output_nothing (JStr "svc") 0%nat
              (list_to_map [("rotation", JBool true); ("deleteAge", JNum 1)])
              (world_of [(0%nat, list_to_map [("rotation", JBool true);
                                              ("deleteAge", JNum 1)])])
              (sample_heap _))
    as [(Hout & _) _].
  exact Hout.
Defined.

(** X15 at [new Iog('svc', {path: '/var/log', rotation: true, console: false})]
    of src/src/iog.js, then [write('first')] and [write('hello')]: the
    second write, in the world the first one left. *)
Lemma X15_witness :
  (JStr "svc" <> JUndefined
   /\ mkdirp_sync (JStr "log") = Returned tt
   /\ truthy (default_param (JBool true) JUndefined) = true
   /\ heap (snd (IogJs.write svc_js (JStr "first") JUndefined JUndefined
                   (svc_js_world [("path", JStr "/var/log"); ("rotation", JBool true);
                                  ("console", JBool false)]))) !! 0%nat
      = heap (svc_js_world [("path", JStr "/var/log"); ("rotation", JBool true);
                            ("console", JBool false)]) !! 0%nat)
  /\ events (snd (IogJs.write svc_js (JStr "hello") JUndefined JUndefined
                    (snd (IogJs.write svc_js (JStr "first") JUndefined JUndefined
                            (svc_js_world [("path", JStr "/var/log");
                                           ("rotation", JBool true);
                                           ("console", JBool false)])))))
     = (events (snd (IogJs.write svc_js (JStr "first") JUndefined JUndefined
                       (svc_js_world [("path", JStr "/var/log"); ("rotation", JBool true);
                                      ("console", JBool false)])))
        ++ [EConsole "log"
              (block (JStr "svc") (dateFormat 1001 "yyyy-mm-dd HH:MM:ss:l") (JStr "log")
                 (JStr "hello") (JStr SEPARATOR));
            EAppendFile "log/svc.log"
              (block (JStr "svc") (dateFormat 1001 "yyyy-mm-dd HH:MM:ss:l") (JStr "log")
                 (JStr "hello") (JStr SEPARATOR))])%list.
Proof.
  assert (Hctx : JStr "svc" <> JUndefined) by discriminate.
  assert (Hkept : heap (snd (IogJs.write svc_js (JStr "first") JUndefined JUndefined
                              (svc_js_world [("path", JStr "/var/log");
                                             ("rotation", JBool true);
                                             ("console", JBool false)]))) !! 0%nat
                  = heap (svc_js_world [("path", JStr "/var/log"); ("rotation", JBool true);
                                        ("console", JBool false)]) !! 0%nat)
    by reflexivity.
  split; [repeat split; assumption|].
  destruct (X15_iogjs_ignores_supplied_options (JStr "svc") 0%nat
              (list_to_map [("path", JStr "/var/log"); ("rotation", JBool true);
                            ("console", JBool false)])
              (world_of [(0%nat, list_to_map [("path", JStr "/var/log");
                                              ("rotation", JBool true);
                                              ("console", JBool false)])])
              (snd (IogJs.write svc_js (JStr "first") JUndefined JUndefined
                      (svc_js_world [("path", JStr "/var/log"); ("rotation", JBool true);
                                     ("console", JBool false)])))
              (JStr "hello") JUndefined JUndefined
              Hctx (sample_heap _) sample_console_returns eq_refl eq_refl Hkept)
    as (_ & _ & _ & _ & Hw & _).
  exact Hw.
Defined.

(** X16 at the world after [new Iog('svc', {rotation: true, deleteAge: 1})],
    seven turns of the timer queue later. *)
Lemma X16_witness :
  (timers (svc_world [("rotation", JBool true); ("deleteAge", JNum 1)]) <> []
   /\ Forall (fun t => delay t = DAY_SECONDS)
        (timers (svc_world [("rotation", JBool true); ("deleteAge", JNum 1)])))
  /\ length (sweeps (run_timers 7
                       (svc_world [("rotation", JBool true); ("deleteAge", JNum 1)])))
     = (length (sweeps (svc_world [("rotation", JBool true); ("deleteAge", JNum 1)])) + 7)%nat.
Proof.
  assert (Hne : timers (svc_world [("rotation", JBool true); ("deleteAge", JNum 1)]) <> [])
    by discriminate.
  assert (Hall : Forall (fun t => delay t = DAY_SECONDS)
                   (timers (svc_world [("rotation", JBool true); ("deleteAge", JNum 1)])))
    by (repeat constructor).
  split; [split; [exact Hne | exact Hall]|].
  destruct (X16_sweeps_go_on_and_touch_nothing_else 7
              (svc_world [("rotation", JBool true); ("deleteAge", JNum 1)]) Hne Hall)
    as (_ & Hsweeps & _).
  exact Hsweeps.
Defined.

(** X18 at [new Iog('svc')], then [write('hello')]. *)
Lemma X18_witness :
  (JStr "svc" <> JUndefined /\ mkdirp_sync (JStr "logs") = Returned tt)
  /\ exists this,
       fst (Iog.constructor (JStr "svc") None (world_of [])) = Returned this
       /\ contextName this = JStr "svc".
Proof.
  assert (Hctx : JStr "svc" <> JUndefined) by discriminate.
  split; [split; [exact Hctx | reflexivity]|].
  destruct (X18_iog_without_options_uses_the_defaults (JStr "svc") (world_of [])
              (JStr "hello") JUndefined Hctx sample_console_returns eq_refl)
    as (this & Hret & Hname & _).
  exists this. split; [exact Hret | exact Hname].
Defined.

(** X19 at [new Iog('svc', {})], after which the caller sets
    [opts.console = false]. *)
Lemma X19_witness :
  (JStr "svc" <> JUndefined
   /\ fst (Iog.constructor (JStr "svc") (Some 0%nat) (world_of [(0%nat, ∅)])) = Returned svc)
  /\ prop_of (snd (set_prop 0%nat "console" (JBool false) (svc_world []))) (opts svc) "console"
     = prop_of (svc_world []) (opts svc) "console".
Proof.
  assert (Hctx : JStr "svc" <> JUndefined) by discriminate.
  assert (Hsvc : fst (Iog.constructor (JStr "svc") (Some 0%nat) (world_of [(0%nat, ∅)]))
                 = Returned svc) by reflexivity.
  split; [split; [exact Hctx | exact Hsvc]|].
  destruct (X19_iog_configuration_is_a_copy (JStr "svc") 0%nat ∅ (world_of [(0%nat, ∅)])
              svc "console" "console" (JBool false) Hctx (sample_heap _) Hsvc)
    as (_ & Hcopy).
  exact Hcopy.
Defined.

(** X20 at [new Iog('svc', {rotation: true, deleteAge: 5})], three turns of
    the timer queue later: four sweeps for files older than 5 * 86400 s. *)
Lemma X20_witness :
  (JStr "svc" <> JUndefined
   /\ timers (world_of [(0%nat, list_to_map [("rotation", JBool true);
                                              ("deleteAge", JNum 5)])]) = []
   /\ 0 < 5)
  /\ sweeps (run_timers 3 (svc_world [("rotation", JBool true); ("deleteAge", JNum 5)]))
     = (sweeps (world_of [(0%nat, list_to_map [("rotation", JBool true);
                                               ("deleteAge", JNum 5)])])
        ++ repeat (EFindRemove (JStr "logs/svc") {| factor := JNum 5; times := 86400 |}
                     [JStr ".log"]) 4)%list.
Proof.
  assert (Hctx : JStr "svc" <> JUndefined) by discriminate.
  assert (Hpos : 0 < 5) by lia.
  assert (Hrot : truthy (cfg_of (list_to_map [("rotation", JBool true);
                                              ("deleteAge", JNum 5)]) "rotation") = true)
    by reflexivity.
  assert (Hage : cfg_of (list_to_map [("rotation", JBool true); ("deleteAge", JNum 5)])
                   "deleteAge" = JNum 5) by reflexivity.
  assert (Hres : path_resolve
                   (cfg_of (list_to_map [("rotation", JBool true); ("deleteAge", JNum 5)])
                      "path") (JStr "svc") = Returned "logs/svc") by reflexivity.
  split; [repeat split; assumption|].
  exact (X20_every_sweep_has_the_configured_age_and_extension (JStr "svc") 0%nat
           (list_to_map [("rotation", JBool true); ("deleteAge", JNum 5)])
           (world_of [(0%nat, list_to_map [("rotation", JBool true); ("deleteAge", JNum 5)])])
           5 "logs/svc" 3 Hctx (sample_heap _) eq_refl Hrot Hage Hpos Hres).
Defined.


End Examples.
